(** * LinkedInify icon generator: a shallow embedding of [icon-generator.py]

    The script draws a glyph on a square coloured background at a fixed list
    of sizes and saves the results.  Everything it does goes through an
    external collaborator (Pillow, the operating system, the console), so the
    embedding threads an explicit world (filesystem, console, log of external
    calls) through a small state-and-exception monad, and takes the behaviour
    of the collaborators from an environment record. *)

From Stdlib Require Import ZArith Lia Bool List.
From Stdlib Require Import Floats.SpecFloat.
From Stdlib Require QArith.QArith_base QArith.Qround.
From stdpp Require Import base option list strings gmap fin_maps pretty.

Local Open Scope string_scope.
Local Open Scope list_scope.
Local Open Scope Z_scope.

(** ** Python exceptions *)

(** The classes of exception the script can meet.  [ModuleNotFoundError] is a
    subclass of [ImportError]; [KeyboardInterrupt] and [SystemExit] derive
    from [BaseException] but not from [Exception]. *)
Inductive exn_class :=
  | ImportError
  | ModuleNotFoundError
  | OSError
  | FileExistsError
  | PermissionError
  | ValueError
  | UnicodeEncodeError
  | OverflowError
  | MemoryError
  | KeyboardInterrupt
  | SystemExit.

Record exn := Exn { exn_cls : exn_class; exn_msg : string }.

(** [isinstance(e, ImportError)] *)
Definition is_ImportError (e : exn) : bool :=
  match exn_cls e with
  | ImportError | ModuleNotFoundError => true
  | _ => false
  end.

(** [isinstance(e, Exception)] *)
Definition is_Exception (e : exn) : bool :=
  match exn_cls e with
  | KeyboardInterrupt | SystemExit => false
  | _ => true
  end.

Inductive result (A : Type) :=
  | Ok (a : A)
  | Raise (e : exn).
Arguments Ok {A} a.
Arguments Raise {A} e.

(** ** Python floats

    [size * 0.4] converts the integer to a binary64 float, multiplies with
    the binary64 nearest to 0.4 and rounds to nearest-even; [int(...)]
    truncates towards zero.  The Standard Library's executable IEEE-754
    specification gives all three. *)
Module PyFloat.

Definition prec : Z := 53.
Definition emax : Z := 1024.

(** [float(n)] for a Python integer: correctly rounded, [OverflowError]
    when out of range. *)
Definition of_int (n : Z) : result spec_float :=
  match binary_normalize prec emax n 0 false with
  | S754_infinity _ => Raise (Exn OverflowError "int too large to convert to float")
  | f => Ok f
  end.

(** The literal [0.4]: 0x1.999999999999ap-2. *)
Definition lit_0_4 : spec_float := S754_finite false 7205759403792794 (-54).

Definition mul (x y : spec_float) : spec_float := SFmul prec emax x y.

(** [int(x)]: truncation towards zero. *)
Definition to_int (x : spec_float) : result Z :=
  match x with
  | S754_zero _ => Ok 0
  | S754_finite s m e => Ok (cond_Zopp s (Z.shiftl (Z.pos m) e))
  | S754_infinity _ => Raise (Exn OverflowError "cannot convert float infinity to integer")
  | S754_nan => Raise (Exn ValueError "cannot convert float NaN to integer")
  end.

(** [math.floor(x)]: the largest integer not above [x]. *)
Definition floor (x : spec_float) : result Z :=
  match x with
  | S754_zero _ => Ok 0
  | S754_finite false m e => Ok (Z.shiftl (Z.pos m) e)
  | S754_finite true m e => Ok (Z.shiftl (Z.neg m) e)
  | S754_infinity _ => Raise (Exn OverflowError "cannot convert float infinity to integer")
  | S754_nan => Raise (Exn ValueError "cannot convert float NaN to integer")
  end.

(** [n * 0.4] for an integer [n]. *)
Definition int_times_0_4 (n : Z) : result spec_float :=
  match of_int n with
  | Ok f => Ok (mul f lit_0_4)
  | Raise e => Raise e
  end.

End PyFloat.

(** ** Pillow's objects *)

Inductive Font :=
  | FreeTypeFont (file : string) (points : Z)
  | DefaultFont.

(** What has been drawn on an image, oldest first. *)
Inductive draw_op :=
  | Text (xy : Z * Z) (text : string) (fill : string) (font : Font)
  | Rectangle (xy : Z * Z * Z * Z) (outline : string) (width : Z).

Record Image := {
  im_mode : string;
  im_width : Z;
  im_height : Z;
  im_color : string;
  im_drawn : list draw_op
}.

(** ** The world *)

(** Every call that leaves the script, with its arguments. *)
Inductive call :=
  | c_import (module : string)
  | c_exists (path : string)
  | c_makedirs (path : string)
  | c_new (mode : string) (size : Z * Z) (color : string)
  | c_Draw (im : Image)
  | c_truetype (font : string) (points : Z)
  | c_load_default
  | c_textbbox (im : Image) (xy : Z * Z) (text : string) (font : Font)
  | c_text (im : Image) (xy : Z * Z) (text : string) (fill : string) (font : Font)
  | c_rectangle (im : Image) (xy : Z * Z * Z * Z) (outline : string) (width : Z)
  | c_save (im : Image) (filename : string) (format : string).

Inductive node :=
  | Dir
  | File (data : list Byte.byte).

Record World := {
  fs : gmap string node;      (* paths relative to the working directory *)
  stdout : list string;       (* one entry per [print], oldest first *)
  calls : list call           (* external calls, oldest first *)
}.

(** The behaviour of the collaborators in one runtime environment. *)
Record Env := {
  raises : call -> option exn;                     (* which calls fail, and how *)
  bbox_of : Z * Z -> string -> Font -> Z * Z * Z * Z;  (* text measurement *)
  encode : string -> Image -> list Byte.byte       (* the image encoders *)
}.

(** ** The state-and-exception monad *)

Definition M (A : Type) : Type := World -> World * result A.

Definition ret {A} (a : A) : M A := fun w => (w, Ok a).

Definition raise {A} (e : exn) : M A := fun w => (w, Raise e).

Definition bind {A B} (m : M A) (k : A -> M B) : M B :=
  fun w => match m w with
           | (w', Ok a) => k a w'
           | (w', Raise e) => (w', Raise e)
           end.

(** [try: m  except <every exception> as e: h e] *)
Definition try_except {A} (m : M A) (h : exn -> M A) : M A :=
  fun w => match m w with
           | (w', Ok a) => (w', Ok a)
           | (w', Raise e) => h e w'
           end.

Definition lift {A} (r : result A) : M A := fun w => (w, r).

Declare Scope py_scope.
Delimit Scope py_scope with py.
Notation "x <- m ;; k" := (bind m (fun x => k))
  (at level 100, m at next level, right associativity) : py_scope.
Notation "m ;;; k" := (bind m (fun _ => k))
  (at level 100, right associativity) : py_scope.
Local Open Scope py_scope.

(** [for x in l: body x] *)
Fixpoint for_each {A} (l : list A) (body : A -> M unit) : M unit :=
  match l with
  | [] => ret tt
  | x :: l' => body x ;;; for_each l' body
  end.

Definition log (c : call) (w : World) : World :=
  {| fs := fs w; stdout := stdout w; calls := calls w ++ [c] |}.

Definition set_fs (f : gmap string node) (w : World) : World :=
  {| fs := f; stdout := stdout w; calls := calls w |}.

(** An external call whose success or failure the environment decides. *)
Definition ext (env : Env) (c : call) : M unit :=
  fun w => match raises env c with
           | Some e => (log c w, Raise e)
           | None => (log c w, Ok tt)
           end.

(** [print(s)]; the console is taken to accept the text. *)
Definition print (s : string) : M unit :=
  fun w => ({| fs := fs w; stdout := stdout w ++ [s]; calls := calls w |}, Ok tt).

(** ** The collaborators *)

(** [import m] / [from m import ...] *)
Definition import_ (env : Env) (m : string) : M unit := ext env (c_import m).

(** [os.path.exists(p)] never raises. *)
Definition os_path_exists (p : string) : M bool :=
  fun w => (log (c_exists p) w, Ok (bool_decide (is_Some (fs w !! p)))).

(** [os.makedirs(p)] without [exist_ok]: [FileExistsError] when the path is
    there already. *)
Definition os_makedirs (env : Env) (p : string) : M unit :=
  fun w =>
    match fs w !! p with
    | Some _ => (log (c_makedirs p) w, Raise (Exn FileExistsError "[Errno 17] File exists"))
    | None =>
        match raises env (c_makedirs p) with
        | Some e => (log (c_makedirs p) w, Raise e)
        | None => (set_fs (<[p := Dir]> (fs w)) (log (c_makedirs p) w), Ok tt)
        end
    end.

(** [Image.new(mode, (w, h), color)].  Pillow rejects a negative dimension
    and hands the two dimensions to C as 32-bit [int]s; any other failure
    (memory, an unknown mode or colour) is the environment's. *)
Definition Image_new (env : Env) (mode : string) (size : Z * Z) (color : string) : M Image :=
  fun w =>
    let w' := log (c_new mode size color) w in
    if (fst size <? 0) || (snd size <? 0) then
      (w', Raise (Exn ValueError "Width and height must be >= 0"))
    else if (2 ^ 31 <=? fst size) || (2 ^ 31 <=? snd size) then
      (w', Raise (Exn OverflowError "signed integer is greater than maximum"))
    else
      match raises env (c_new mode size color) with
      | Some e => (w', Raise e)
      | None => (w', Ok {| im_mode := mode; im_width := fst size; im_height := snd size;
                           im_color := color; im_drawn := [] |})
      end.

(** [ImageDraw.Draw(img)]: the drawing handle shares the image, so the
    embedding passes the image itself to the drawing calls. *)
Definition ImageDraw_Draw (env : Env) (img : Image) : M unit := ext env (c_Draw img).

(** [ImageFont.truetype(font, size)] *)
Definition ImageFont_truetype (env : Env) (font : string) (points : Z) : M Font :=
  ext env (c_truetype font points) ;;; ret (FreeTypeFont font points).

(** [ImageFont.load_default()]: Pillow documents it as always returning its
    built-in font. *)
Definition ImageFont_load_default : M Font :=
  fun w => (log c_load_default w, Ok DefaultFont).

(** [draw.textbbox(xy, text, font=font)] *)
Definition draw_textbbox (env : Env) (img : Image) (xy : Z * Z) (text : string) (font : Font)
  : M (Z * Z * Z * Z) :=
  ext env (c_textbbox img xy text font) ;;; ret (bbox_of env xy text font).

Definition add_op (op : draw_op) (img : Image) : Image :=
  {| im_mode := im_mode img; im_width := im_width img; im_height := im_height img;
     im_color := im_color img; im_drawn := im_drawn img ++ [op] |}.

(** [draw.text(xy, text, fill=fill, font=font)] *)
Definition draw_text (env : Env) (img : Image) (xy : Z * Z) (text fill : string) (font : Font)
  : M Image :=
  ext env (c_text img xy text fill font) ;;; ret (add_op (Text xy text fill font) img).

(** [draw.rectangle(xy, outline=outline, width=width)] *)
Definition draw_rectangle (env : Env) (img : Image) (xy : Z * Z * Z * Z)
    (outline : string) (width : Z) : M Image :=
  ext env (c_rectangle img xy outline width) ;;; ret (add_op (Rectangle xy outline width) img).

(** [img.save(filename, format)]: creates the file or replaces its content.
    What a save that raises leaves of its target is not part of the
    embedding, which keeps the tree as it was. *)
Definition Image_save (env : Env) (img : Image) (filename format : string) : M unit :=
  fun w =>
    let w' := log (c_save img filename format) w in
    match raises env (c_save img filename format) with
    | Some e => (w', Raise e)
    | None => (set_fs (<[filename := File (encode env format img)]> (fs w')) w', Ok tt)
    end.

(** ** The script *)

(** Line 12. *)
Definition ICON_SIZES : list Z := [72; 96; 128; 144; 152; 192; 384; 512].

(** The glyph, U+1F4DD. *)
Definition glyph : string := "📝".

(** Line 22: [int(size * 0.4)]. *)
Definition font_size (size : Z) : result Z :=
  match PyFloat.int_times_0_4 size with
  | Ok x => PyFloat.to_int x
  | Raise e => Raise e
  end.

(** Lines 24-32: the three font tiers; both [except] clauses are bare. *)
Definition select_font (env : Env) (points : Z) : M Font :=
  try_except (ImageFont_truetype env "arial.ttf" points) (fun _ =>
    try_except (ImageFont_truetype env "/System/Library/Fonts/Arial.ttf" points) (fun _ =>
      ImageFont_load_default)).

(** Line 47. *)
Definition border_width (size : Z) : Z := Z.max 1 (size / 64).

(** Lines 14-50. *)
Definition create_icon (env : Env) (size : Z) : M Image :=
  img <- Image_new env "RGB" (size, size) "#0077b5" ;;
  ImageDraw_Draw env img ;;;
  let text := glyph in
  points <- lift (font_size size) ;;
  font <- select_font env points ;;
  bbox <- draw_textbbox env img (0, 0) text font ;;
  let '(b0, b1, b2, b3) := bbox in
  let text_width := b2 - b0 in
  let text_height := b3 - b1 in
  let x := (size - text_width) / 2 in
  let y := (size - text_height) / 2 - b1 in
  img <- draw_text env img (x, y) text "white" font ;;
  img <- draw_rectangle env img (0, 0, size - 1, size - 1) "#005582" (border_width size) ;;
  ret img.

Definition nl : string := String (Ascii.ascii_of_nat 10) "".

(** [f'icons/icon-{size}x{size}.png'] *)
Definition icon_filename (size : Z) : string :=
  "icons/icon-" +:+ pretty size +:+ "x" +:+ pretty size +:+ ".png".

(** Lines 60-64: the body of the loop. *)
Definition save_icon (env : Env) (size : Z) : M unit :=
  icon <- create_icon env size ;;
  let filename := icon_filename size in
  Image_save env icon filename "PNG" ;;;
  print ("✅ Created " +:+ filename).

(** Lines 52-75. *)
Definition generate_all_icons (env : Env) : M unit :=
  (there <- os_path_exists "icons" ;;
   if negb there then os_makedirs env "icons" else ret tt) ;;;
  print "🎨 Generating LinkedInify icons..." ;;;
  for_each ICON_SIZES (save_icon env) ;;;
  favicon <- create_icon env 32 ;;
  Image_save env favicon "favicon.ico" "ICO" ;;;
  print "✅ Created favicon.ico" ;;;
  print (nl +:+ "🎉 All icons generated successfully!") ;;;
  print (nl +:+ "Generated files:") ;;;
  for_each ICON_SIZES (fun size => print ("  - " +:+ icon_filename size)) ;;;
  print "  - favicon.ico".

(** Lines 77-88: the guarded call.  The first clause takes an [ImportError],
    the second any other [Exception]; what is neither goes on. *)
Definition main (env : Env) : M unit :=
  try_except (generate_all_icons env) (fun e =>
    if is_ImportError e then
      print "❌ Pillow library not found. Install it with:" ;;;
      print "   pip install Pillow"
    else if is_Exception e then
      print ("❌ Error generating icons: " +:+ exn_msg e) ;;;
      print (nl +:+ "Alternative: Use online icon generators like:") ;;;
      print "  - https://realfavicongenerator.net/" ;;;
      print "  - https://www.favicon-generator.org/" ;;;
      print "  - https://favicon.io/"
    else raise e).

(** The file run as a program: the imports of lines 7-9, then the guarded
    call.  A result [Raise e] is an exception nothing caught: the interpreter
    prints a traceback and stops. *)
Definition script (env : Env) : M unit :=
  import_ env "os" ;;;
  import_ env "PIL" ;;;
  import_ env "json" ;;;
  main env.

(** ** Notions the statements use *)

(** A working directory with nothing in it, a silent console, no call made. *)
Definition clean : World := {| fs := ∅; stdout := []; calls := [] |}.

(** [w] with further calls logged. *)
Definition add_calls (cs : list call) (w : World) : World :=
  {| fs := fs w; stdout := stdout w; calls := calls w ++ cs |}.

(** The calls [create_icon] makes to Pillow's image and drawing interface. *)
Definition is_drawing (c : call) : bool :=
  match c with
  | c_new _ _ _ | c_Draw _ | c_textbbox _ _ _ _ | c_text _ _ _ _ _
  | c_rectangle _ _ _ _ => true
  | _ => false
  end.

(** An environment in which those calls do not fail. *)
Definition drawing_works (env : Env) : Prop :=
  forall c, is_drawing c = true -> raises env c = None.

(** The font the three tiers arrive at, as a function of the environment. *)
Definition font_tier (env : Env) (points : Z) : Font :=
  match raises env (c_truetype "arial.ttf" points) with
  | None => FreeTypeFont "arial.ttf" points
  | Some _ =>
      match raises env (c_truetype "/System/Library/Fonts/Arial.ttf" points) with
      | None => FreeTypeFont "/System/Library/Fonts/Arial.ttf" points
      | Some _ => DefaultFont
      end
  end.

(** The font calls made on the way there. *)
Definition font_tries (env : Env) (points : Z) : list call :=
  match raises env (c_truetype "arial.ttf" points) with
  | None => [c_truetype "arial.ttf" points]
  | Some _ =>
      match raises env (c_truetype "/System/Library/Fonts/Arial.ttf" points) with
      | None => [c_truetype "arial.ttf" points;
                 c_truetype "/System/Library/Fonts/Arial.ttf" points]
      | Some _ => [c_truetype "arial.ttf" points;
                   c_truetype "/System/Library/Fonts/Arial.ttf" points;
                   c_load_default]
      end
  end.

(** The image [Image.new] hands back. *)
Definition blank (size : Z) : Image :=
  {| im_mode := "RGB"; im_width := size; im_height := size;
     im_color := "#0077b5"; im_drawn := [] |}.

(** Where the glyph goes for a given bounding box. *)
Definition glyph_xy (size : Z) (bbox : Z * Z * Z * Z) : Z * Z :=
  let '(b0, b1, b2, b3) := bbox in
  ((size - (b2 - b0)) / 2, (size - (b3 - b1)) / 2 - b1).

(** The icon of a given size, as a function of the environment. *)
Definition icon (env : Env) (size : Z) : Image :=
  let font := font_tier env (2 * size / 5) in
  add_op (Rectangle (0, 0, size - 1, size - 1) "#005582" (border_width size))
    (add_op (Text (glyph_xy size (bbox_of env (0, 0) glyph font)) glyph "white" font)
       (blank size)).

(** The calls that produce it. *)
Definition icon_calls (env : Env) (size : Z) : list call :=
  let font := font_tier env (2 * size / 5) in
  let xy := glyph_xy size (bbox_of env (0, 0) glyph font) in
  [c_new "RGB" (size, size) "#0077b5"; c_Draw (blank size)]
  ++ font_tries env (2 * size / 5)
  ++ [c_textbbox (blank size) (0, 0) glyph font;
      c_text (blank size) xy glyph "white" font;
      c_rectangle (add_op (Text xy glyph "white" font) (blank size))
        (0, 0, size - 1, size - 1) "#005582" (border_width size)].

(** The drawing calls for that icon do not fail. *)
Definition can_draw (env : Env) (size : Z) : Prop :=
  Forall (fun c => is_drawing c = true -> raises env c = None) (icon_calls env size).

(** Lines 61-64 and lines 67-69 have one shape: draw, save, report. *)
Definition save_as (env : Env) (size : Z) (filename format : string) : M unit :=
  icon <- create_icon env size ;;
  Image_save env icon filename format ;;;
  print ("✅ Created " +:+ filename).

(** The icon of that size can be drawn and saved under that name. *)
Definition saved_ok (env : Env) (size : Z) (filename format : string) : Prop :=
  0 <= size < 2 ^ 31 /\ can_draw env size /\
  raises env (c_save (icon env size) filename format) = None.

(** The world once it has been. *)
Definition after_save (env : Env) (size : Z) (filename format : string) (w : World)
  : World :=
  {| fs := <[filename := File (encode env format (icon env size))]> (fs w);
     stdout := stdout w ++ ["✅ Created " +:+ filename];
     calls := calls w ++ icon_calls env size ++ [c_save (icon env size) filename format] |}.

Definition icon_ok (env : Env) (size : Z) : Prop :=
  saved_ok env size (icon_filename size) "PNG".

Definition after_icon (env : Env) (size : Z) (w : World) : World :=
  after_save env size (icon_filename size) "PNG" w.

Definition after_icons (env : Env) (sizes : list Z) (w : World) : World :=
  foldl (fun w size => after_icon env size w) w sizes.

(** The calls of a loop over sizes that are all fine. *)
Definition icons_calls (env : Env) (sizes : list Z) : list call :=
  concat (map (fun size => icon_calls env size
                             ++ [c_save (icon env size) (icon_filename size) "PNG"]) sizes).

(** The name and format under which the loop saves a size. *)
Definition png_of (size : Z) : string * string := (icon_filename size, "PNG").

(** The directory tree once a loop over sizes that are all fine has run. *)
Definition write_icons (env : Env) (sizes : list Z) (f : gmap string node)
  : gmap string node :=
  foldl (fun f s => <[icon_filename s := File (encode env "PNG" (icon env s))]> f) f sizes.

(** [w] with further lines printed. *)
Definition add_out (lines : list string) (w : World) : World :=
  {| fs := fs w; stdout := stdout w ++ lines; calls := calls w |}.

(** Lines 71-75. *)
Definition summary : list string :=
  [nl +:+ "🎉 All icons generated successfully!"; nl +:+ "Generated files:"]
  ++ map (fun size => "  - " +:+ icon_filename size) ICON_SIZES
  ++ ["  - favicon.ico"].

(** The world after a batch in which nothing failed. *)
Definition after_batch (env : Env) (w : World) : World :=
  add_out summary
    (after_save env 32 "favicon.ico" "ICO"
       (after_icons env ICON_SIZES
          (add_out ["🎨 Generating LinkedInify icons..."] w))).

(** The [save] calls in a log, in order: file name and format. *)
Definition saves (cs : list call) : list (string * string) :=
  omap (fun c => match c with c_save _ f fmt => Some (f, fmt) | _ => None end) cs.

(** The sizes for which an image was asked of [Image.new], in order. *)
Definition renders (cs : list call) : list Z :=
  omap (fun c => match c with c_new _ (w, _) _ => Some w | _ => None end) cs.

(** Lines 58-75: what [generate_all_icons] does once the directory is there. *)
Definition batch (env : Env) : M unit :=
  print "🎨 Generating LinkedInify icons..." ;;;
  for_each ICON_SIZES (save_icon env) ;;;
  favicon <- create_icon env 32 ;;
  Image_save env favicon "favicon.ico" "ICO" ;;;
  print "✅ Created favicon.ico" ;;;
  print (nl +:+ "🎉 All icons generated successfully!") ;;;
  print (nl +:+ "Generated files:") ;;;
  for_each ICON_SIZES (fun size => print ("  - " +:+ icon_filename size)) ;;;
  print "  - favicon.ico".

(** Lines 54-56. *)
Definition ensure_dir (env : Env) : M unit :=
  there <- os_path_exists "icons" ;;
  (if negb there then os_makedirs env "icons" else ret tt).

(** What the batch sets out to write, in the order of lines 60-68: size,
    file name, format. *)
Definition job_of (size : Z) : Z * string * string := (size, icon_filename size, "PNG").

Definition jobs : list (Z * string * string) :=
  map job_of ICON_SIZES ++ [(32, "favicon.ico", "ICO")].

Definition job_size (j : Z * string * string) : Z := fst (fst j).
Definition job_file (j : Z * string * string) : string * string := (snd (fst j), snd j).

(** Where a run of [generate_all_icons] from [w] raised [e], leaving the
    world [wf]: in the directory step, or while drawing or saving one of the
    jobs after the jobs before it went through.  The two indices are the jobs
    begun and the jobs not reached. *)
Inductive raised_in (env : Env) (w wf : World) (e : exn)
  : list (Z * string * string) -> list (Z * string * string) -> Prop :=
  | in_directory :
      ensure_dir env w = (wf, Raise e) ->
      raised_in env w wf e [] jobs
  | in_job before size filename format after w1 :
      jobs = before ++ (size, filename, format) :: after ->
      (ensure_dir env ;;;
       print "🎨 Generating LinkedInify icons..." ;;;
       for_each (map job_size before) (save_icon env)) w = (w1, Ok tt) ->
      (icon <- create_icon env size ;; Image_save env icon filename format) w1
        = (wf, Raise e) ->
      raised_in env w wf e (before ++ [(size, filename, format)]) after.

(** The two handlers' output. *)
Definition install_hint : list string :=
  ["❌ Pillow library not found. Install it with:"; "   pip install Pillow"].

Definition failure_report (e : exn) : list string :=
  ["❌ Error generating icons: " +:+ exn_msg e;
   nl +:+ "Alternative: Use online icon generators like:";
   "  - https://realfavicongenerator.net/";
   "  - https://www.favicon-generator.org/";
   "  - https://favicon.io/"].

(** [floor(size * 0.4)] over the rationals, where 0.4 is four tenths. *)
Definition floor_0_4 (size : Z) : Z :=
  Qround.Qfloor (QArith_base.Qmult (QArith_base.inject_Z size) (QArith_base.Qmake 4 10)).

(** The mantissa of the literal [0.4]. *)
Definition mant_0_4 : Z := 7205759403792794.

(** ** Sample environments *)

Definition sample_bbox (xy : Z * Z) (text : string) (font : Font) : Z * Z * Z * Z :=
  match font with
  | FreeTypeFont _ points => (fst xy, snd xy + points / 5, fst xy + points, snd xy + points)
  | DefaultFont => (fst xy, snd xy + 3, fst xy + 6, snd xy + 11)
  end.

Definition sample_encode (format : string) (img : Image) : list Byte.byte :=
  String.list_byte_of_string
    (format +:+ ":" +:+ pretty (im_width img) +:+ "x" +:+ pretty (im_height img)).

(** Everything is installed and works. *)
Definition env_fine : Env :=
  {| raises := fun _ => None; bbox_of := sample_bbox; encode := sample_encode |}.

(** Neither named font can be opened. *)
Definition env_no_fonts : Env :=
  {| raises := fun c => match c with
                        | c_truetype _ _ => Some (Exn OSError "cannot open resource")
                        | _ => None
                        end;
     bbox_of := sample_bbox; encode := sample_encode |}.

(** Pillow is not installed. *)
Definition env_no_pillow : Env :=
  {| raises := fun c => match c with
                        | c_import "PIL" => Some (Exn ModuleNotFoundError "No module named 'PIL'")
                        | _ => None
                        end;
     bbox_of := sample_bbox; encode := sample_encode |}.


(** Saving the 144-pixel icon fails because the disk is full. *)
Definition env_disk_full : Env :=
  {| raises := fun c => match c with
                        | c_save _ "icons/icon-144x144.png" _ =>
                            Some (Exn OSError "[Errno 28] No space left on device")
                        | _ => None
                        end;
     bbox_of := sample_bbox; encode := sample_encode |}.



(** Saving needs a plugin whose import fails. *)
Definition env_plugin_missing : Env :=
  {| raises := fun c => match c with
                        | c_save _ _ _ => Some (Exn ImportError "cannot import name '_imaging'")
                        | _ => None
                        end;
     bbox_of := sample_bbox; encode := sample_encode |}.

(** * Floating point: [int(size * 0.4)] *)

Lemma Zdigits2_bounds p :
  2 ^ (Z.pos (digits2_pos p) - 1) <= Z.pos p < 2 ^ Z.pos (digits2_pos p).
Proof.
  induction p as [p IH | p IH |]; cbn [digits2_pos].
  - rewrite Pos2Z.inj_succ, Pos2Z.inj_xI.
    replace (Z.succ (Z.pos (digits2_pos p)) - 1) with (Z.succ (Z.pos (digits2_pos p) - 1)) by lia.
    rewrite !Z.pow_succ_r by lia. lia.
  - rewrite Pos2Z.inj_succ, (Pos2Z.inj_xO p).
    replace (Z.succ (Z.pos (digits2_pos p)) - 1) with (Z.succ (Z.pos (digits2_pos p) - 1)) by lia.
    rewrite !Z.pow_succ_r by lia. lia.
  - simpl. lia.
Qed.

Lemma Zdigits2_unique m d :
  0 < d -> 2 ^ (d - 1) <= m < 2 ^ d -> Zdigits2 m = d.
Proof.
  intros Hd [Hlo Hhi].
  assert (0 < m) by (pose proof (Z.pow_pos_nonneg 2 (d - 1)); lia).
  destruct m as [|p|p]; try lia. cbn [Zdigits2].
  pose proof (Zdigits2_bounds p) as [Blo Bhi].
  set (k := Z.pos (digits2_pos p)) in *.
  assert (0 < k) by (subst k; lia).
  destruct (Z.lt_trichotomy k d) as [Hlt | [Heq | Hgt]]; [|exact Heq|].
  - assert (2 ^ k <= 2 ^ (d - 1)) by (apply Z.pow_le_mono_r; lia). lia.
  - assert (2 ^ d <= 2 ^ (k - 1)) by (apply Z.pow_le_mono_r; lia). lia.
Qed.

Lemma shr_1_m mrs : 0 <= shr_m mrs -> shr_m (shr_1 mrs) = shr_m mrs / 2.
Proof.
  destruct mrs as [m r s]. cbn [shr_m]. intros Hm.
  destruct m as [|[p|p|]|p]; cbn [shr_1 shr_m]; try lia; try reflexivity.
  - rewrite (Pos2Z.inj_xI p). apply Z.div_unique with 1; lia.
  - rewrite (Pos2Z.inj_xO p). apply Z.div_unique with 0; lia.
Qed.

Lemma shr_iter_m p : forall mrs,
  0 <= shr_m mrs -> shr_m (SpecFloat.iter_pos shr_1 p mrs) = shr_m mrs / 2 ^ Z.pos p.
Proof.
  induction p as [p IH | p IH |]; intros mrs Hm; cbn [SpecFloat.iter_pos].
  - assert (H1 : 0 <= shr_m (shr_1 mrs)) by (rewrite shr_1_m by easy; apply Z.div_pos; lia).
    assert (H2 : 0 <= shr_m (SpecFloat.iter_pos shr_1 p (shr_1 mrs)))
      by (rewrite IH by easy; apply Z.div_pos; [easy | apply Z.pow_pos_nonneg; lia]).
    rewrite IH, IH, shr_1_m by easy.
    rewrite !Z.div_div by (try apply Z.pow_pos_nonneg; lia).
    f_equal. rewrite Pos2Z.inj_xI.
    replace (2 * Z.pos p + 1) with (1 + Z.pos p + Z.pos p) by lia.
    rewrite !Z.pow_add_r by lia. lia.
  - assert (H2 : 0 <= shr_m (SpecFloat.iter_pos shr_1 p mrs))
      by (rewrite IH by easy; apply Z.div_pos; [easy | apply Z.pow_pos_nonneg; lia]).
    rewrite IH, IH by easy.
    rewrite !Z.div_div by (try apply Z.pow_pos_nonneg; lia).
    f_equal. rewrite (Pos2Z.inj_xO p).
    replace (2 * Z.pos p) with (Z.pos p + Z.pos p) by lia.
    rewrite !Z.pow_add_r by lia. lia.
  - rewrite shr_1_m by easy. reflexivity.
Qed.

Lemma fexp64 e : -1074 <= e - 53 -> fexp 53 1024 e = e - 53.
Proof. intros H. unfold fexp, emin. lia. Qed.

Lemma shr_fexp_shift mx ex s :
  0 < s -> 2 ^ (52 + s) <= mx < 2 ^ (53 + s) -> -1074 <= ex + s ->
  shr_fexp 53 1024 mx ex loc_Exact =
    (SpecFloat.iter_pos shr_1 (Z.to_pos s) (Build_shr_record mx false false), ex + s).
Proof.
  intros Hs Hmx He. unfold shr_fexp.
  rewrite (Zdigits2_unique mx (53 + s)) by (try replace (53 + s - 1) with (52 + s) by lia; lia).
  rewrite fexp64 by lia.
  replace (53 + s + ex - 53 - ex) with s by lia.
  destruct s as [|p|p]; try lia. reflexivity.
Qed.

Lemma shr_fexp_keep mx ex :
  2 ^ 52 <= mx < 2 ^ 53 -> -1074 <= ex ->
  shr_fexp 53 1024 mx ex loc_Exact = (Build_shr_record mx false false, ex).
Proof.
  intros Hmx He. unfold shr_fexp.
  rewrite (Zdigits2_unique mx 53) by (change (53 - 1) with 52; lia).
  rewrite fexp64 by lia.
  replace (53 + ex - 53 - ex) with 0 by lia. reflexivity.
Qed.

Lemma round_nearest_even_range m l :
  m <= round_nearest_even m l <= m + 1.
Proof. destruct l as [|[| |]]; cbn [round_nearest_even]; try lia. destruct (Z.even m); lia. Qed.

(** Rounding a long positive mantissa to 53 bits. *)
Lemma binary_round_aux_long mx ex s :
  0 < s -> 2 ^ (52 + s) <= mx < 2 ^ (53 + s) -> -1074 <= ex + s -> ex + s < 971 ->
  exists m' e',
    binary_round_aux 53 1024 false mx ex loc_Exact = S754_finite false m' e' /\
    ((e' = ex + s /\ mx / 2 ^ s <= Z.pos m' <= mx / 2 ^ s + 1) \/
     (e' = ex + s + 1 /\ 2 * Z.pos m' = mx / 2 ^ s + 1)).
Proof.
  intros Hs Hmx Helo Hehi.
  assert (Hp : 0 < 2 ^ s) by (apply Z.pow_pos_nonneg; lia).
  assert (Hq : 2 ^ 52 <= mx / 2 ^ s < 2 ^ 53).
  { rewrite !Z.pow_add_r in Hmx by lia. split.
    - apply Z.div_le_lower_bound; lia.
    - apply Z.div_lt_upper_bound; lia. }
  unfold binary_round_aux. rewrite (shr_fexp_shift mx ex s) by assumption.
  set (mrs := SpecFloat.iter_pos shr_1 (Z.to_pos s) _).
  assert (Hm : shr_m mrs = mx / 2 ^ s).
  { subst mrs. rewrite shr_iter_m.
    - cbn [shr_m]. rewrite Z2Pos.id by lia. reflexivity.
    - cbn [shr_m]. lia. }
  rewrite Hm.
  pose proof (round_nearest_even_range (mx / 2 ^ s) (loc_of_shr_record mrs)) as Hr.
  set (m1 := round_nearest_even _ _) in *.
  destruct (Z.eq_dec m1 (2 ^ 53)) as [E | NE].
  - rewrite E. exists (2 ^ 52)%positive, (ex + s + 1).
    assert (Hs1 : shr_fexp 53 1024 (2 ^ 53) (ex + s) loc_Exact =
                  (Build_shr_record (2 ^ 52) false false, ex + s + 1)).
    { unfold shr_fexp. change (Zdigits2 (2 ^ 53)) with 54.
      rewrite fexp64 by lia. replace (54 + (ex + s) - 53 - (ex + s)) with 1 by lia.
      reflexivity. }
    rewrite Hs1. cbn [shr_m].
    change (2 ^ 52) with (Z.pos (2 ^ 52)) at 1.
    cbv iota beta.
    replace (ex + s + 1 <=? 1024 - 53) with true by (symmetry; apply Z.leb_le; lia).
    split; [reflexivity | right]. split; [reflexivity |].
    change (Z.pos (2 ^ 52)) with (2 ^ 52). change (2 ^ 53) with (2 * 2 ^ 52) in E. lia.
  - rewrite (shr_fexp_keep m1 (ex + s)) by lia. cbn [shr_m].
    destruct m1 as [|p|p] eqn:Em; try lia.
    exists p, (ex + s).
    replace (ex + s <=? 1024 - 53) with true by (symmetry; apply Z.leb_le; lia).
    split; [reflexivity | left]. split; [reflexivity | lia].
Qed.

Lemma binary_round_aux_keep mx ex :
  2 ^ 52 <= Z.pos mx < 2 ^ 53 -> -1074 <= ex <= 971 ->
  binary_round_aux 53 1024 false (Z.pos mx) ex loc_Exact = S754_finite false mx ex.
Proof.
  intros Hmx He. unfold binary_round_aux.
  rewrite (shr_fexp_keep (Z.pos mx) ex) by lia.
  cbn [shr_m loc_of_shr_record round_nearest_even].
  rewrite (shr_fexp_keep (Z.pos mx) ex) by lia.
  cbn [shr_m].
  replace (ex <=? 1024 - 53) with true by (symmetry; apply Z.leb_le; lia).
  reflexivity.
Qed.

Lemma Pos_iter_xO p k : Z.pos (Pos.iter xO p k) = Z.pos p * 2 ^ Z.pos k.
Proof.
  induction k as [|k IH] using Pos.peano_ind.
  - cbn [Pos.iter]. rewrite (Pos2Z.inj_xO p). change (2 ^ 1) with 2. lia.
  - rewrite Pos.iter_succ, (Pos2Z.inj_xO (Pos.iter xO p k)), IH, Pos2Z.inj_succ.
    rewrite Z.pow_succ_r by lia. lia.
Qed.

Lemma scale_bounds n d :
  0 < d <= 53 -> 2 ^ (d - 1) <= n < 2 ^ d ->
  2 ^ 52 <= n * 2 ^ (53 - d) < 2 ^ 53.
Proof.
  intros Hd Hn.
  assert (E1 : 2 ^ 52 = 2 ^ (d - 1) * 2 ^ (53 - d))
    by (rewrite <- Z.pow_add_r by lia; f_equal; lia).
  assert (E2 : 2 ^ 53 = 2 ^ d * 2 ^ (53 - d))
    by (rewrite <- Z.pow_add_r by lia; f_equal; lia).
  assert (0 < 2 ^ (53 - d)) by (apply Z.pow_pos_nonneg; lia).
  rewrite E1, E2. split.
  - apply Z.mul_le_mono_nonneg_r; lia.
  - apply Z.mul_lt_mono_pos_r; lia.
Qed.

(** [float(n)] is exact for an integer of at most 53 bits. *)
Lemma binary_normalize_exact n d :
  0 < d <= 53 -> 2 ^ (d - 1) <= n < 2 ^ d ->
  exists mz, binary_normalize 53 1024 n 0 false = S754_finite false mz (d - 53) /\
             Z.pos mz = n * 2 ^ (53 - d).
Proof.
  intros Hd Hn.
  assert (Hd' : Zdigits2 n = d) by (apply Zdigits2_unique; lia).
  assert (0 < n) by (pose proof (Z.pow_pos_nonneg 2 (d - 1)); lia).
  destruct n as [|p|p]; try lia. cbn [Zdigits2] in Hd'.
  cbn [binary_normalize]. unfold binary_round.
  rewrite Hd', fexp64 by lia.
  assert (Hscale : 2 ^ 52 <= Z.pos p * 2 ^ (53 - d) < 2 ^ 53)
    by (apply scale_bounds; lia).
  unfold shl_align.
  destruct (d + 0 - 53 - 0) as [|k|k] eqn:Ek; try lia.
  - assert (E53 : 53 - d = 0) by lia. rewrite E53 in *. change (2 ^ 0) with 1 in *.
    exists p. split; [|lia].
    rewrite binary_round_aux_keep by lia. f_equal. lia.
  - exists (Pos.iter xO p k).
    assert (Hk : Z.pos k = 53 - d) by lia.
    split; [|rewrite Pos_iter_xO, Hk; reflexivity].
    rewrite binary_round_aux_keep; [f_equal; lia | rewrite Pos_iter_xO, Hk; lia | lia].
Qed.

(** The decisive inequality: [int(n * 0.4)] is the floor of [2n/5]. *)
Lemma two_fifths n d :
  0 < d <= 51 -> 2 ^ (d - 1) <= n < 2 ^ d ->
  exists m' e',
    binary_round_aux 53 1024 false (n * 2 ^ (53 - d) * mant_0_4) (d - 53 + -54) loc_Exact
      = S754_finite false m' e' /\
    e' < 0 /\ Z.pos m' / 2 ^ (- e') = 2 * n / 5.
Proof.
  intros Hd Hn.
  set (U := 2 ^ (53 - d)).
  assert (HU : 4 <= U).
  { change 4 with (2 ^ 2). apply Z.pow_le_mono_r; lia. }
  assert (HnU : 2 ^ 52 <= n * U < 2 ^ 53) by (apply scale_bounds; lia).
  set (P := n * U * mant_0_4).
  assert (HP : 2 ^ 104 <= P < 2 ^ 106) by (subst P; unfold mant_0_4; lia).
  set (k := 2 * n / 5).
  assert (Hk : 5 * k <= 2 * n < 5 * k + 5).
  { subst k. pose proof (Z.div_mod (2 * n) 5 ltac:(lia)).
    pose proof (Z.mod_pos_bound (2 * n) 5 ltac:(lia)). lia. }
  assert (Hk1 : 5 * (k * U) <= 2 * (n * U)) by nia.
  assert (Hk2 : 2 * (n * U) + U <= 5 * (k * U) + 5 * U) by nia.
  (* the shift is 52 or 53 *)
  assert (Hs : exists s, (s = 52 \/ s = 53) /\ 2 ^ (52 + s) <= P < 2 ^ (53 + s)).
  { destruct (Z.lt_ge_cases P (2 ^ 105)).
    - exists 52. split; [auto|]. change (52 + 52) with 104. change (53 + 52) with 105. lia.
    - exists 53. split; [auto|]. change (52 + 53) with 105. change (53 + 53) with 106. lia. }
  destruct Hs as (s & Hs & HPs).
  destruct (binary_round_aux_long P (d - 53 + -54) s) as (m' & e' & Hr & Hcase); try lia.
  exists m', e'. split; [exact Hr|].
  set (Sh := 2 ^ s) in *.
  assert (HS : 0 < Sh <= 2 ^ 53).
  { subst Sh. destruct Hs; subst s; split; try (apply Z.pow_pos_nonneg; lia);
      try (apply Z.pow_le_mono_r; lia). }
  set (q := P / Sh) in *.
  assert (Hq : Sh * q <= P < Sh * q + Sh).
  { subst q. pose proof (Z.div_mod P Sh ltac:(lia)).
    pose proof (Z.mod_pos_bound P Sh ltac:(lia)). lia. }
  set (T := 2 ^ (107 - d - s)).
  assert (HT : Sh * T = 2 ^ 54 * U).
  { subst Sh T U. rewrite <- !Z.pow_add_r by lia. f_equal. lia. }
  assert (HTpos : 0 < T) by (subst T; apply Z.pow_pos_nonneg; lia).
  (* k T <= q and q + 1 < (k+1) T *)
  assert (Hlo : k * T <= q).
  { unfold q. apply Z.div_le_lower_bound; [lia|].
    assert (E : Sh * (k * T) = 2 ^ 54 * (k * U))
      by (transitivity (k * (Sh * T)); [ring | rewrite HT; ring]).
    rewrite E.
    subst P. unfold mant_0_4 in *. lia. }
  assert (Hhi : q + 1 < (k + 1) * T).
  { apply Z.mul_lt_mono_pos_l with Sh; [lia|].
    assert (E : Sh * ((k + 1) * T) = 2 ^ 54 * (k * U) + 2 ^ 54 * U)
      by (transitivity ((k + 1) * (Sh * T)); [ring | rewrite HT; ring]).
    rewrite E.
    subst P. unfold mant_0_4 in *. lia. }
  destruct Hcase as [[He Hm] | [He Hm]].
  - split; [lia|].
    replace (- e') with (107 - d - s) by lia. fold T.
    symmetry. apply Z.div_unique with (Z.pos m' - k * T). 
    + left. lia.
    + lia.
  - split; [lia|].
    assert (HT2 : T = 2 * 2 ^ (- e')).
    { subst T. replace (107 - d - s) with (Z.succ (- e')) by lia.
      rewrite Z.pow_succ_r by lia. reflexivity. }
    set (T' := 2 ^ (- e')) in *.
    symmetry. apply Z.div_unique with (Z.pos m' - k * T').
    + left. lia.
    + lia.
Qed.

(** [int(size * 0.4)] is the integer part of two fifths of [size], for every
    size a float still holds with room to spare. *)
Lemma font_size_exact n :
  0 <= n < 2 ^ 51 -> font_size n = Ok (2 * n / 5).
Proof.
  intros [Hn0 Hn].
  destruct (Z.eq_dec n 0) as [-> | Hnz]; [reflexivity|].
  assert (Hpos : 0 < n) by lia.
  destruct n as [|p|p]; try lia.
  pose proof (Zdigits2_bounds p) as Hb.
  set (d := Z.pos (digits2_pos p)) in *.
  assert (Hd : 0 < d <= 51).
  { split; [subst d; lia|].
    destruct (Z.le_gt_cases d 51) as [|Hgt]; [assumption|].
    assert (2 ^ 51 <= 2 ^ (d - 1)) by (apply Z.pow_le_mono_r; lia). lia. }
  destruct (binary_normalize_exact (Z.pos p) d) as (mz & Hmz & Emz); try lia.
  destruct (two_fifths (Z.pos p) d Hd Hb) as (m' & e' & Hr & He & Hq).
  unfold font_size, PyFloat.int_times_0_4, PyFloat.of_int.
  change PyFloat.prec with 53. change PyFloat.emax with 1024.
  rewrite Hmz.
  unfold PyFloat.mul, PyFloat.lit_0_4, SFmul.
  change PyFloat.prec with 53. change PyFloat.emax with 1024.
  cbn [xorb].
  rewrite Pos2Z.inj_mul, Emz.
  change (Z.pos 7205759403792794) with mant_0_4.
  rewrite Hr. cbn [PyFloat.to_int cond_Zopp].
  rewrite Z.shiftl_div_pow2 by lia. rewrite Hq. reflexivity.
Qed.

(** On a product that is not negative, truncation and floor agree. *)
Lemma to_int_floor n x :
  0 <= n -> PyFloat.int_times_0_4 n = Ok x -> PyFloat.to_int x = PyFloat.floor x.
Proof.
  intros Hn. unfold PyFloat.int_times_0_4, PyFloat.of_int.
  destruct n as [|p|p]; try lia.
  - cbn. intros [= <-]. reflexivity.
  - cbn [binary_normalize]. unfold binary_round.
    destruct (shl_align _ _ _) as [mz ez].
    unfold binary_round_aux at 1.
    destruct (shr_fexp _ _ _ _ _) as [mrs1 e1].
    destruct (shr_fexp _ _ _ _ _) as [mrs2 e2].
    destruct (shr_m mrs2) as [|m|m].
    + intros [= <-]. reflexivity.
    + destruct (e2 <=? PyFloat.emax - PyFloat.prec); [|discriminate].
      intros [= <-]. unfold PyFloat.mul, PyFloat.lit_0_4, SFmul, binary_round_aux.
      cbn [xorb].
      destruct (shr_fexp _ _ _ _ _) as [mrs3 e3].
      destruct (shr_fexp _ _ _ _ _) as [mrs4 e4].
      destruct (shr_m mrs4); [reflexivity | | reflexivity].
      destruct (e4 <=? PyFloat.emax - PyFloat.prec); reflexivity.
    + intros [= <-]. reflexivity.
Qed.

(** * The monad *)

Lemma bind_ok_inv {A B} (m : M A) (k : A -> M B) w w' b :
  bind m k w = (w', Ok b) ->
  exists a w1, m w = (w1, Ok a) /\ k a w1 = (w', Ok b).
Proof.
  unfold bind. destruct (m w) as [w1 [a | e]]; [eauto | discriminate].
Qed.

Lemma bind_ok {A B} (m : M A) (k : A -> M B) w w1 a :
  m w = (w1, Ok a) -> bind m k w = k a w1.
Proof. unfold bind. intros ->. reflexivity. Qed.

Lemma bind_raise {A B} (m : M A) (k : A -> M B) w w1 e :
  m w = (w1, Raise e) -> bind m k w = (w1, Raise e).
Proof. unfold bind. intros ->. reflexivity. Qed.

Lemma bind_assoc {A B C} (m : M A) (k : A -> M B) (h : B -> M C) w :
  bind (bind m k) h w = bind m (fun a => bind (k a) h) w.
Proof. unfold bind. destruct (m w) as [w1 [a | e]]; reflexivity. Qed.

Lemma bind_ext {A B} (m : M A) (k k' : A -> M B) w :
  (forall a w1, k a w1 = k' a w1) -> bind m k w = bind m k' w.
Proof. intros H. unfold bind. destruct (m w) as [w1 [a | e]]; [apply H | reflexivity]. Qed.

(** A loop stops at the first iteration that raises: what comes after it in
    the list has no part in the outcome. *)
Lemma for_each_abort {A} (body : A -> M unit) pre x post w w1 wf e :
  for_each pre body w = (w1, Ok tt) ->
  body x w1 = (wf, Raise e) ->
  for_each (pre ++ x :: post) body w = (wf, Raise e).
Proof.
  revert w. induction pre as [|y pre IH]; intros w Hpre Hx.
  - cbn in Hpre. injection Hpre as <-. cbn [app for_each].
    apply bind_raise. exact Hx.
  - cbn [for_each] in Hpre. apply bind_ok_inv in Hpre as ([] & w2 & Hy & Hrest).
    cbn [app for_each]. rewrite (bind_ok _ _ _ _ _ Hy). apply IH; assumption.
Qed.

Lemma log_as_add_calls c w : log c w = add_calls [c] w.
Proof. reflexivity. Qed.

Lemma add_calls_add_calls cs1 cs2 w :
  add_calls cs2 (add_calls cs1 w) = add_calls (cs1 ++ cs2) w.
Proof. unfold add_calls. cbn. rewrite <- app_assoc. reflexivity. Qed.

(** The three tiers always deliver a font. *)
Lemma select_font_run env points w :
  select_font env points w = (add_calls (font_tries env points) w, Ok (font_tier env points)).
Proof.
  unfold select_font, try_except, ImageFont_truetype, ImageFont_load_default,
    bind, ext, ret, font_tries, font_tier.
  destruct (raises env (c_truetype "arial.ttf" points)); [|reflexivity].
  destruct (raises env (c_truetype "/System/Library/Fonts/Arial.ttf" points)).
  - rewrite !log_as_add_calls, !add_calls_add_calls. reflexivity.
  - rewrite !log_as_add_calls, !add_calls_add_calls. reflexivity.
Qed.

Lemma can_draw_inv env size :
  can_draw env size ->
  let font := font_tier env (2 * size / 5) in
  let xy := glyph_xy size (bbox_of env (0, 0) glyph font) in
  raises env (c_new "RGB" (size, size) "#0077b5") = None /\
  raises env (c_Draw (blank size)) = None /\
  raises env (c_textbbox (blank size) (0, 0) glyph font) = None /\
  raises env (c_text (blank size) xy glyph "white" font) = None /\
  raises env (c_rectangle (add_op (Text xy glyph "white" font) (blank size))
                (0, 0, size - 1, size - 1) "#005582" (border_width size)) = None.
Proof.
  unfold can_draw, icon_calls. intros H. cbn zeta.
  apply Forall_app in H as [H1 H2]. apply Forall_app in H2 as [_ H2].
  apply Forall_cons in H1 as [Hnew H1]. apply Forall_cons in H1 as [HDraw _].
  apply Forall_cons in H2 as [Hbbox H2]. apply Forall_cons in H2 as [Htext H2].
  apply Forall_cons in H2 as [Hrect _].
  repeat split; auto.
Qed.

Lemma drawing_works_can_draw env size : drawing_works env -> can_draw env size.
Proof. intros H. apply Forall_forall. intros c _. apply H. Qed.

(** When its drawing calls go through, [create_icon] returns [icon] after
    the calls [icon_calls], whatever the world it starts in. *)
Lemma create_icon_ok env size w :
  0 <= size < 2 ^ 31 -> can_draw env size ->
  create_icon env size w = (add_calls (icon_calls env size) w, Ok (icon env size)).
Proof.
  intros Hs Hd. apply can_draw_inv in Hd. cbn zeta in Hd.
  destruct Hd as (Hnew & HDraw & Hbbox & Htext & Hrect).
  assert (Hfs : font_size size = Ok (2 * size / 5)) by (apply font_size_exact; lia).
  unfold icon, icon_calls in *.
  set (font := font_tier env (2 * size / 5)) in *.
  destruct (bbox_of env (0, 0) glyph font) as [[[b0 b1] b2] b3] eqn:Eb.
  unfold glyph_xy in *.
  unfold create_icon, bind at 1, Image_new. cbn [fst snd].
  replace (size <? 0) with false by (symmetry; apply Z.ltb_ge; lia).
  replace (2 ^ 31 <=? size) with false by (symmetry; apply Z.leb_gt; lia).
  cbn [orb]. rewrite Hnew. fold (blank size).
  unfold bind at 1, ImageDraw_Draw, ext. rewrite HDraw.
  unfold bind at 1, lift. rewrite Hfs.
  unfold bind at 1. rewrite select_font_run. fold font.
  unfold bind at 1, draw_textbbox, bind at 1, ext, ret. rewrite Hbbox, Eb.
  unfold bind at 1, draw_text, bind at 1, ext, ret. rewrite Htext.
  unfold bind at 1, draw_rectangle, bind at 1, ext, ret. rewrite Hrect.
  rewrite !log_as_add_calls, !add_calls_add_calls.
  reflexivity.
Qed.

Lemma can_draw_intro env size :
  let font := font_tier env (2 * size / 5) in
  let xy := glyph_xy size (bbox_of env (0, 0) glyph font) in
  raises env (c_new "RGB" (size, size) "#0077b5") = None ->
  raises env (c_Draw (blank size)) = None ->
  raises env (c_textbbox (blank size) (0, 0) glyph font) = None ->
  raises env (c_text (blank size) xy glyph "white" font) = None ->
  raises env (c_rectangle (add_op (Text xy glyph "white" font) (blank size))
                (0, 0, size - 1, size - 1) "#005582" (border_width size)) = None ->
  can_draw env size.
Proof.
  cbn zeta. intros Hnew HDraw Hbbox Htext Hrect.
  unfold can_draw, icon_calls.
  repeat (apply Forall_app; split);
    repeat (apply List.Forall_cons || apply List.Forall_nil); auto.
  unfold font_tries.
  destruct (raises env (c_truetype "arial.ttf" _));
    [destruct (raises env (c_truetype "/System/Library/Fonts/Arial.ttf" _))|];
    repeat (apply List.Forall_cons || apply List.Forall_nil); cbn; intros; discriminate.
Qed.

Lemma saves_app cs1 cs2 : saves (cs1 ++ cs2) = saves cs1 ++ saves cs2.
Proof. apply omap_app. Qed.

Lemma renders_app cs1 cs2 : renders (cs1 ++ cs2) = renders cs1 ++ renders cs2.
Proof. apply omap_app. Qed.

Lemma font_tries_quiet env points :
  saves (font_tries env points) = [] /\ renders (font_tries env points) = [].
Proof.
  unfold font_tries.
  destruct (raises env (c_truetype "arial.ttf" _));
    [destruct (raises env (c_truetype "/System/Library/Fonts/Arial.ttf" _))|];
    split; reflexivity.
Qed.

Lemma icon_calls_saves env size : saves (icon_calls env size) = [].
Proof.
  unfold icon_calls. cbn zeta. rewrite !saves_app.
  rewrite (proj1 (font_tries_quiet env _)). reflexivity.
Qed.

Lemma icon_calls_renders env size : renders (icon_calls env size) = [size].
Proof.
  unfold icon_calls. cbn zeta. rewrite !renders_app.
  rewrite (proj2 (font_tries_quiet env _)). reflexivity.
Qed.

(** Every run of [create_icon] either delivers [icon] or raises after asking
    for the image and making no further image request and no save. *)
Lemma create_icon_cases env size w :
  (0 <= size < 2 ^ 31 /\ can_draw env size /\
   create_icon env size w = (add_calls (icon_calls env size) w, Ok (icon env size)))
  \/
  (exists e cs,
     create_icon env size w
       = (add_calls (c_new "RGB" (size, size) "#0077b5" :: cs) w, Raise e) /\
     saves cs = [] /\ renders cs = []).
Proof.
  destruct (create_icon env size w) as [w' r] eqn:Hrun.
  unfold create_icon, bind at 1, Image_new in Hrun. cbn [fst snd] in Hrun.
  destruct (size <? 0) eqn:Hneg.
  { injection Hrun as <- <-. right. eexists _, []. split; [reflexivity|]. split; reflexivity. }
  destruct (2 ^ 31 <=? size) eqn:Hbig.
  { injection Hrun as <- <-. right. eexists _, []. split; [reflexivity|]. split; reflexivity. }
  cbn [orb] in Hrun. fold (blank size) in Hrun.
  assert (Hs : 0 <= size < 2 ^ 31) by (apply Z.ltb_ge in Hneg; apply Z.leb_gt in Hbig; lia).
  assert (Hfs : font_size size = Ok (2 * size / 5)) by (apply font_size_exact; lia).
  pose proof (can_draw_intro env size) as Hintro. cbn zeta in Hintro.
  pose proof (font_tries_quiet env (2 * size / 5)) as [Hq1 Hq2].
  set (font := font_tier env (2 * size / 5)) in *.
  destruct (bbox_of env (0, 0) glyph font) as [[[b0 b1] b2] b3] eqn:Eb.
  unfold glyph_xy in Hintro.
  destruct (raises env (c_new "RGB" (size, size) "#0077b5")) as [e|] eqn:Hnew.
  { injection Hrun as <- <-. right. eexists _, []. split; [reflexivity|]. split; reflexivity. }
  unfold bind at 1, ImageDraw_Draw, ext in Hrun.
  destruct (raises env (c_Draw (blank size))) as [e|] eqn:HDraw.
  { injection Hrun as <- <-. right. eexists _, _.
    rewrite !log_as_add_calls, !add_calls_add_calls.
    split; [reflexivity|]. split; reflexivity. }
  unfold bind at 1, lift in Hrun. rewrite Hfs in Hrun.
  unfold bind at 1 in Hrun. rewrite select_font_run in Hrun. fold font in Hrun.
  unfold bind at 1, draw_textbbox, bind at 1, ext, ret in Hrun.
  destruct (raises env (c_textbbox (blank size) (0, 0) glyph font)) as [e|] eqn:Hbbox.
  { injection Hrun as <- <-. right. eexists _, _.
    rewrite !log_as_add_calls, !add_calls_add_calls.
    split; [reflexivity|]. rewrite !saves_app, !renders_app, Hq1, Hq2. split; reflexivity. }
  rewrite Eb in Hrun.
  unfold bind at 1, draw_text, bind at 1, ext, ret in Hrun.
  destruct (raises env (c_text _ _ _ _ _)) as [e|] eqn:Htext.
  { injection Hrun as <- <-. right. eexists _, _.
    rewrite !log_as_add_calls, !add_calls_add_calls.
    split; [reflexivity|]. rewrite !saves_app, !renders_app, Hq1, Hq2. split; reflexivity. }
  unfold bind at 1, draw_rectangle, bind at 1, ext, ret in Hrun.
  destruct (raises env (c_rectangle _ _ _ _)) as [e|] eqn:Hrect.
  { injection Hrun as <- <-. right. eexists _, _.
    rewrite !log_as_add_calls, !add_calls_add_calls.
    split; [reflexivity|]. rewrite !saves_app, !renders_app, Hq1, Hq2. split; reflexivity. }
  injection Hrun as <- <-.
  left. split; [exact Hs|]. split; [apply Hintro; reflexivity|].
  rewrite !log_as_add_calls, !add_calls_add_calls.
  unfold icon, icon_calls, glyph_xy. fold font. rewrite Eb. reflexivity.
Qed.

(** * Drawing, saving, reporting *)

Lemma save_icon_save_as env size :
  save_icon env size = save_as env size (icon_filename size) "PNG".
Proof. reflexivity. Qed.

Lemma save_as_ok env size filename format w :
  saved_ok env size filename format ->
  save_as env size filename format w = (after_save env size filename format w, Ok tt).
Proof.
  intros (Hs & Hd & Hsave). unfold save_as, bind at 1.
  rewrite create_icon_ok by assumption.
  unfold bind, Image_save, print. rewrite Hsave.
  unfold after_save, set_fs, log, add_calls. cbn. rewrite <- app_assoc. reflexivity.
Qed.

(** Drawing, saving and reporting one icon either goes through, or raises
    having changed nothing but the log of calls. *)
Lemma save_as_cases env size filename format w :
  (saved_ok env size filename format /\
   save_as env size filename format w = (after_save env size filename format w, Ok tt))
  \/
  (exists e cs,
     save_as env size filename format w = (add_calls cs w, Raise e) /\
     renders cs = [size] /\ (saves cs = [] \/ saves cs = [(filename, format)])).
Proof.
  destruct (create_icon_cases env size w) as [(Hs & Hd & Hrun) | (e & cs & Hrun & Hsv & Hrn)].
  - destruct (raises env (c_save (icon env size) filename format)) as [e|] eqn:Hsave.
    + right. exists e, (icon_calls env size ++ [c_save (icon env size) filename format]).
      split; [|split].
      * unfold save_as, bind at 1. rewrite Hrun.
        unfold bind, Image_save. rewrite Hsave.
        rewrite log_as_add_calls, add_calls_add_calls. reflexivity.
      * rewrite renders_app, icon_calls_renders. reflexivity.
      * right. rewrite saves_app, icon_calls_saves. reflexivity.
    + left. assert (Hok : saved_ok env size filename format) by (repeat split; tauto || lia).
      split; [exact Hok | apply save_as_ok; exact Hok].
  - right. exists e, (c_new "RGB" (size, size) "#0077b5" :: cs). split; [|split].
    + unfold save_as. apply bind_raise. exact Hrun.
    + cbn. fold (renders cs). rewrite Hrn. reflexivity.
    + left. cbn. fold (saves cs). exact Hsv.
Qed.

Lemma print_run s w : print s w = (add_out [s] w, Ok tt).
Proof. reflexivity. Qed.

Lemma add_out_add_out l1 l2 w : add_out l2 (add_out l1 w) = add_out (l1 ++ l2) w.
Proof. unfold add_out. cbn. rewrite <- app_assoc. reflexivity. Qed.

Lemma add_out_nil w : add_out [] w = w.
Proof. destruct w. unfold add_out. cbn. rewrite app_nil_r. reflexivity. Qed.

Lemma for_each_print {A} (f : A -> string) l w :
  for_each l (fun x => print (f x)) w = (add_out (map f l) w, Ok tt).
Proof.
  revert w. induction l as [|x l IH]; intros w.
  - cbn. rewrite add_out_nil. reflexivity.
  - cbn [for_each map]. unfold bind. rewrite print_run, IH, add_out_add_out. reflexivity.
Qed.


(** The loop comes to one of two ends: every size was fine, or it stopped at
    the first size that was not. *)
Lemma for_each_save_cases env sizes w :
  (Forall (icon_ok env) sizes /\
   for_each sizes (save_icon env) w = (after_icons env sizes w, Ok tt))
  \/
  (exists pre s post e cs,
     sizes = pre ++ s :: post /\ Forall (icon_ok env) pre /\
     save_icon env s (after_icons env pre w) = (add_calls cs (after_icons env pre w), Raise e) /\
     renders cs = [s] /\ (saves cs = [] \/ saves cs = [(icon_filename s, "PNG")]) /\
     for_each sizes (save_icon env) w = (add_calls cs (after_icons env pre w), Raise e)).
Proof.
  revert w. induction sizes as [|s sizes IH]; intros w.
  - left. split; [constructor | reflexivity].
  - destruct (save_as_cases env s (icon_filename s) "PNG" w)
      as [[Hok Hrun] | (e & cs & Hrun & Hrn & Hsv)].
    + destruct (IH (after_icon env s w))
        as [[Hall Hloop] | (pre & x & post & e & cs & -> & Hpre & Hx & Hrn & Hsv & Hloop)].
      * left. split; [constructor; assumption|].
        cbn [for_each]. unfold bind. rewrite save_icon_save_as, Hrun. exact Hloop.
      * right. exists (s :: pre), x, post, e, cs.
        split; [reflexivity|]. split; [constructor; assumption|].
        split; [exact Hx|]. split; [exact Hrn|]. split; [exact Hsv|].
        cbn [for_each app]. unfold bind. rewrite save_icon_save_as, Hrun. exact Hloop.
    + right. exists [], s, sizes, e, cs.
      split; [reflexivity|]. split; [constructor|].
      split; [exact Hrun|]. split; [exact Hrn|]. split; [exact Hsv|].
      cbn [for_each app]. unfold bind. rewrite save_icon_save_as, Hrun. reflexivity.
Qed.

Lemma after_icons_calls env sizes w :
  calls (after_icons env sizes w) = calls w ++ icons_calls env sizes.
Proof.
  revert w. induction sizes as [|s sizes IH]; intros w.
  - cbn. rewrite app_nil_r. reflexivity.
  - change (after_icons env (s :: sizes) w) with (after_icons env sizes (after_icon env s w)).
    rewrite IH. unfold icons_calls. cbn [map concat after_icon after_save calls].
    rewrite <- !app_assoc. reflexivity.
Qed.

Lemma after_icons_fs env sizes w :
  fs (after_icons env sizes w) = write_icons env sizes (fs w).
Proof.
  unfold write_icons.
  revert w. induction sizes as [|s sizes IH]; intros w.
  - reflexivity.
  - change (after_icons env (s :: sizes) w) with (after_icons env sizes (after_icon env s w)).
    rewrite IH. reflexivity.
Qed.

Lemma icons_calls_saves env sizes : saves (icons_calls env sizes) = map png_of sizes.
Proof.
  induction sizes as [|s sizes IH]; [reflexivity|].
  unfold icons_calls. cbn [map concat]. fold (icons_calls env sizes).
  rewrite !saves_app, icon_calls_saves, IH. reflexivity.
Qed.

Lemma icons_calls_renders env sizes : renders (icons_calls env sizes) = sizes.
Proof.
  induction sizes as [|s sizes IH]; [reflexivity|].
  unfold icons_calls. cbn [map concat]. fold (icons_calls env sizes).
  rewrite !renders_app, icon_calls_renders, IH. reflexivity.
Qed.

Lemma for_each_save_inv env sizes w w' :
  for_each sizes (save_icon env) w = (w', Ok tt) ->
  Forall (icon_ok env) sizes /\ w' = after_icons env sizes w.
Proof.
  intros H.
  destruct (for_each_save_cases env sizes w)
    as [[Hall Hloop] | (pre & x & post & e & cs & _ & _ & _ & _ & _ & Hloop)];
    rewrite Hloop in H.
  - injection H as <-. split; [assumption | reflexivity].
  - discriminate.
Qed.

(** * The directory *)

Lemma ensure_dir_cases env w :
  (is_Some (fs w !! "icons") /\
   ensure_dir env w = (add_calls [c_exists "icons"] w, Ok tt))
  \/
  (fs w !! "icons" = None /\ raises env (c_makedirs "icons") = None /\
   ensure_dir env w
     = (set_fs (<["icons" := Dir]> (fs w)) (add_calls [c_exists "icons"; c_makedirs "icons"] w),
        Ok tt))
  \/
  (exists e, fs w !! "icons" = None /\ raises env (c_makedirs "icons") = Some e /\
   ensure_dir env w = (add_calls [c_exists "icons"; c_makedirs "icons"] w, Raise e)).
Proof.
  unfold ensure_dir, bind, os_path_exists, os_makedirs, ret.
  destruct (fs w !! "icons") as [n|] eqn:Hl.
  - left. split; [eauto|].
    rewrite bool_decide_eq_true_2 by eauto. reflexivity.
  - right. rewrite bool_decide_eq_false_2 by (intros [? ?]; discriminate).
    cbn [negb log fs]. rewrite Hl.
    destruct (raises env (c_makedirs "icons")) as [e|] eqn:Hm.
    + right. exists e. repeat split; try reflexivity.
      rewrite !log_as_add_calls, !add_calls_add_calls. reflexivity.
    + left. repeat split; try reflexivity.
      rewrite !log_as_add_calls, !add_calls_add_calls. reflexivity.
Qed.

Lemma generate_all_icons_unfold env w :
  generate_all_icons env w = bind (ensure_dir env) (fun _ => batch env) w.
Proof. reflexivity. Qed.

(** * The batch *)

Lemma batch_unfold env w :
  batch env w =
    bind (for_each ICON_SIZES (save_icon env))
      (fun _ => bind (save_as env 32 "favicon.ico" "ICO")
                  (fun _ => fun w => (add_out summary w, Ok tt)))
      (add_out ["🎨 Generating LinkedInify icons..."] w).
Proof.
  unfold batch. unfold bind at 1. rewrite print_run.
  apply bind_ext. intros _ w1.
  unfold save_as. rewrite bind_assoc. apply bind_ext. intros fav w2.
  rewrite bind_assoc. apply bind_ext. intros _ w3.
  unfold bind. rewrite !print_run, for_each_print, !print_run.
  rewrite !add_out_add_out. reflexivity.
Qed.

(** The batch comes to one of three ends: all nine files were written, the
    loop stopped at a size, or the favicon failed. *)
Lemma batch_cases env w :
  let w0 := add_out ["🎨 Generating LinkedInify icons..."] w in
  (Forall (icon_ok env) ICON_SIZES /\ saved_ok env 32 "favicon.ico" "ICO" /\
   batch env w = (after_batch env w, Ok tt))
  \/
  (exists pre s post e cs,
     ICON_SIZES = pre ++ s :: post /\ Forall (icon_ok env) pre /\
     renders cs = [s] /\ (saves cs = [] \/ saves cs = [png_of s]) /\
     batch env w = (add_calls cs (after_icons env pre w0), Raise e))
  \/
  (exists e cs,
     Forall (icon_ok env) ICON_SIZES /\
     renders cs = [32] /\ (saves cs = [] \/ saves cs = [("favicon.ico", "ICO")]) /\
     batch env w = (add_calls cs (after_icons env ICON_SIZES w0), Raise e)).
Proof.
  intros w0. rewrite batch_unfold. fold w0.
  destruct (for_each_save_cases env ICON_SIZES w0)
    as [[Hall Hloop] | (pre & s & post & e & cs & Hsplit & Hpre & _ & Hrn & Hsv & Hloop)].
  - rewrite (bind_ok _ _ _ _ _ Hloop).
    destruct (save_as_cases env 32 "favicon.ico" "ICO" (after_icons env ICON_SIZES w0))
      as [[Hok Hrun] | (e & cs & Hrun & Hrn & Hsv)].
    + left. split; [exact Hall|]. split; [exact Hok|].
      rewrite (bind_ok _ _ _ _ _ Hrun). reflexivity.
    + right. right. exists e, cs. split; [exact Hall|]. split; [exact Hrn|].
      split; [exact Hsv|]. apply bind_raise. exact Hrun.
  - right. left. exists pre, s, post, e, cs.
    split; [exact Hsplit|]. split; [exact Hpre|]. split; [exact Hrn|].
    split; [exact Hsv|]. apply bind_raise. exact Hloop.
Qed.

(** * Files *)

Lemma write_icons_cons env s sizes f :
  write_icons env (s :: sizes) f
    = write_icons env sizes (<[icon_filename s := File (encode env "PNG" (icon env s))]> f).
Proof. reflexivity. Qed.

Lemma write_icons_other env sizes f p :
  p ∉ map icon_filename sizes -> write_icons env sizes f !! p = f !! p.
Proof.
  revert f. induction sizes as [|s sizes IH]; intros f Hp; [reflexivity|].
  cbn [map] in Hp. apply not_elem_of_cons in Hp as [Hne Hp].
  rewrite write_icons_cons, IH by exact Hp. apply lookup_insert_ne. congruence.
Qed.

Lemma write_icons_in env sizes f s :
  NoDup (map icon_filename sizes) -> s ∈ sizes ->
  write_icons env sizes f !! icon_filename s = Some (File (encode env "PNG" (icon env s))).
Proof.
  revert f. induction sizes as [|x sizes IH]; intros f Hnd Hs.
  - apply elem_of_nil in Hs as [].
  - cbn [map] in Hnd. apply NoDup_cons in Hnd as [Hx Hnd].
    rewrite write_icons_cons.
    destruct (decide (s ∈ sizes)) as [Hin | Hout].
    + apply IH; assumption.
    + apply elem_of_cons in Hs as [-> | Hin]; [|contradiction].
      rewrite write_icons_other by exact Hx. apply lookup_insert_eq.
Qed.

Lemma icon_names_distinct : NoDup (map icon_filename ICON_SIZES).
Proof. apply (bool_decide_unpack _). vm_compute. exact I. Qed.

Lemma favicon_not_icon : "favicon.ico" ∉ map icon_filename ICON_SIZES.
Proof. apply (bool_decide_unpack _). vm_compute. exact I. Qed.

Lemma icons_dir_not_icon : "icons" ∉ map icon_filename ICON_SIZES.
Proof. apply (bool_decide_unpack _). vm_compute. exact I. Qed.


(** * The whole run *)

Lemma after_batch_calls env w :
  calls (after_batch env w)
    = calls w ++ icons_calls env ICON_SIZES ++ icon_calls env 32
        ++ [c_save (icon env 32) "favicon.ico" "ICO"].
Proof.
  unfold after_batch. cbn [add_out after_save calls].
  rewrite after_icons_calls. cbn [add_out calls]. rewrite <- !app_assoc. reflexivity.
Qed.

Lemma after_batch_fs env w :
  fs (after_batch env w)
    = <["favicon.ico" := File (encode env "ICO" (icon env 32))]>
        (write_icons env ICON_SIZES (fs w)).
Proof.
  unfold after_batch. cbn [add_out after_save fs].
  rewrite after_icons_fs. reflexivity.
Qed.

(** What a directory step that went through has done. *)
Lemma ensure_dir_ok_inv env w w0 :
  ensure_dir env w = (w0, Ok tt) ->
  exists cs0,
    calls w0 = calls w ++ cs0 /\ saves cs0 = [] /\ renders cs0 = [] /\
    stdout w0 = stdout w /\
    (forall p, p ≠ "icons" -> fs w0 !! p = fs w !! p) /\
    (fs w0 !! "icons" = Some Dir \/ (is_Some (fs w !! "icons") /\ fs w0 = fs w)) /\
    (is_Some (fs w !! "icons") -> fs w0 = fs w /\ cs0 = [c_exists "icons"]).
Proof.
  intros H.
  destruct (ensure_dir_cases env w) as [[Hs Hrun] | [(Hn & Hm & Hrun) | (e & Hn & Hm & Hrun)]];
    rewrite Hrun in H; [| |discriminate]; injection H as <-.
  - exists [c_exists "icons"]. repeat split; auto.
  - exists [c_exists "icons"; c_makedirs "icons"].
    split; [reflexivity|]. split; [reflexivity|]. split; [reflexivity|].
    split; [reflexivity|]. split; [|split].
    + intros p Hp. cbn. apply lookup_insert_ne. congruence.
    + left. cbn. apply lookup_insert_eq.
    + intros [n Hsome]. congruence.
Qed.

Lemma generate_ok_inv env w w' :
  generate_all_icons env w = (w', Ok tt) ->
  exists w0,
    ensure_dir env w = (w0, Ok tt) /\
    Forall (icon_ok env) ICON_SIZES /\ saved_ok env 32 "favicon.ico" "ICO" /\
    w' = after_batch env w0.
Proof.
  rewrite generate_all_icons_unfold. intros H.
  apply bind_ok_inv in H as ([] & w0 & Hdir & Hbatch).
  exists w0. split; [exact Hdir|].
  destruct (batch_cases env w0)
    as [(Hall & Hfav & Hrun) | [(pre & s & post & e & cs & _ & _ & _ & _ & Hrun)
                               | (e & cs & _ & _ & _ & Hrun)]];
    rewrite Hrun in Hbatch; try discriminate.
  injection Hbatch as <-. auto.
Qed.


Lemma create_icon_result env size :
  0 <= size < 2 ^ 31 -> can_draw env size ->
  forall w0, snd (create_icon env size w0) = Ok (icon env size).
Proof. intros Hs Hd w0. rewrite create_icon_ok by assumption. reflexivity. Qed.

(** * The claims *)

(** C1.  After a run of [generate_all_icons] that went through, the saves it
    made are exactly the eight [icons/icon-NxN.png] in ascending order of
    size, each in PNG, followed by [favicon.ico] in ICO: nine saves and no
    other.  Each file holds the encoding of what [create_icon] returns for
    its size, the favicon that of [create_icon(32)]; apart from the [icons]
    directory no other path of the tree has changed. *)
Theorem generate_all_icons_writes env w w' :
  generate_all_icons env w = (w', Ok tt) ->
  exists cs,
    calls w' = calls w ++ cs /\
    saves cs = [("icons/icon-72x72.png", "PNG"); ("icons/icon-96x96.png", "PNG");
                ("icons/icon-128x128.png", "PNG"); ("icons/icon-144x144.png", "PNG");
                ("icons/icon-152x152.png", "PNG"); ("icons/icon-192x192.png", "PNG");
                ("icons/icon-384x384.png", "PNG"); ("icons/icon-512x512.png", "PNG");
                ("favicon.ico", "ICO")] /\
    renders cs = [72; 96; 128; 144; 152; 192; 384; 512; 32] /\
    (forall size, size ∈ ICON_SIZES ->
       exists img, (forall w0, snd (create_icon env size w0) = Ok img) /\
                   fs w' !! icon_filename size = Some (File (encode env "PNG" img))) /\
    (exists fav, (forall w0, snd (create_icon env 32 w0) = Ok fav) /\
                 fs w' !! "favicon.ico" = Some (File (encode env "ICO" fav))) /\
    (forall p, p ∉ map fst (saves cs) -> p ≠ "icons" -> fs w' !! p = fs w !! p) /\
    (fs w' !! "icons" = Some Dir \/ fs w' !! "icons" = fs w !! "icons").
Proof.
  intros H. apply generate_ok_inv in H as (w0 & Hdir & Hall & Hfav & ->).
  apply ensure_dir_ok_inv in Hdir as (cs0 & Hc0 & Hs0 & Hr0 & _ & Hfs0 & Hd0 & _).
  exists (cs0 ++ icons_calls env ICON_SIZES ++ icon_calls env 32
            ++ [c_save (icon env 32) "favicon.ico" "ICO"]).
  assert (Hsaves : saves (cs0 ++ icons_calls env ICON_SIZES ++ icon_calls env 32
                            ++ [c_save (icon env 32) "favicon.ico" "ICO"])
                   = map png_of ICON_SIZES ++ [("favicon.ico", "ICO")]).
  { rewrite !saves_app, Hs0, icons_calls_saves, icon_calls_saves. reflexivity. }
  split; [|split; [|split; [|split; [|split; [|split]]]]].
  - rewrite after_batch_calls, Hc0, <- !app_assoc. reflexivity.
  - rewrite Hsaves. vm_compute. reflexivity.
  - rewrite !renders_app, Hr0, icons_calls_renders, icon_calls_renders. reflexivity.
  - intros size Hsize. exists (icon env size).
    pose proof (proj1 (Forall_forall _ _) Hall size Hsize) as (Hs & Hd & _).
    split; [apply create_icon_result; assumption|].
    rewrite after_batch_fs, lookup_insert_ne.
    + apply write_icons_in; [exact icon_names_distinct | exact Hsize].
    + intros E. apply favicon_not_icon. rewrite E. apply list_elem_of_fmap. eauto.
  - exists (icon env 32). destruct Hfav as (Hs & Hd & _).
    split; [apply create_icon_result; assumption|].
    rewrite after_batch_fs. apply lookup_insert_eq.
  - intros p Hp Hicons. rewrite Hsaves in Hp.
    rewrite map_app, map_map in Hp. cbn [map png_of fst] in Hp.
    apply not_elem_of_app in Hp as [Hp1 Hp2].
    rewrite after_batch_fs, lookup_insert_ne by (intros <-; apply Hp2; constructor).
    rewrite write_icons_other by exact Hp1. apply Hfs0. exact Hicons.
  - rewrite after_batch_fs, lookup_insert_ne by discriminate.
    rewrite write_icons_other by exact icons_dir_not_icon.
    destruct Hd0 as [Hd | [_ ->]]; [left; exact Hd | right; reflexivity].
Qed.

Lemma generate_all_icons_writes_witness :
  exists cs,
    calls (fst (generate_all_icons env_fine clean)) = calls clean ++ cs /\
    length (saves cs) = 9%nat /\
    fs (fst (generate_all_icons env_fine clean)) !! "icons" = Some Dir.
Proof.
  destruct (generate_all_icons_writes env_fine clean (fst (generate_all_icons env_fine clean)))
    as (cs & Hc & Hs & _ & _ & _ & _ & _).
  - vm_compute. reflexivity.
  - exists cs. split; [exact Hc|]. split; [rewrite Hs; reflexivity|].
    vm_compute. reflexivity.
Defined.

Lemma floor_0_4_eq size : floor_0_4 size = 2 * size / 5.
Proof.
  unfold floor_0_4, Qround.Qfloor, QArith_base.Qmult, QArith_base.inject_Z.
  cbn [QArith_base.Qnum QArith_base.Qden].
  change (Z.pos (1 * 10)) with (5 * 2).
  replace (size * 4) with (2 * size * 2) by lia.
  apply Z.div_mul_cancel_r; lia.
Qed.

Lemma create_icon_inv env size w w' img :
  create_icon env size w = (w', Ok img) ->
  0 <= size < 2 ^ 31 /\ can_draw env size /\
  w' = add_calls (icon_calls env size) w /\ img = icon env size.
Proof.
  intros H.
  destruct (create_icon_cases env size w) as [(Hs & Hd & Hrun) | (e & cs & Hrun & _)];
    rewrite Hrun in H; [|discriminate].
  injection H as <- <-. auto.
Qed.


Lemma create_icon_total env size w :
  0 <= size < 2 ^ 31 -> drawing_works env ->
  exists w' img, create_icon env size w = (w', Ok img).
Proof.
  intros Hs Hd. eexists _, _. apply create_icon_ok; [exact Hs|].
  apply drawing_works_can_draw. exact Hd.
Qed.

Lemma font_tries_points env points f p :
  c_truetype f p ∈ font_tries env points -> p = points.
Proof.
  unfold font_tries.
  destruct (raises env (c_truetype "arial.ttf" points));
    [destruct (raises env (c_truetype "/System/Library/Fonts/Arial.ttf" points))|];
    intros H; repeat (apply elem_of_cons in H as [H | H]; [congruence|]);
    apply elem_of_nil in H as [].
Qed.

Lemma font_tries_first env points :
  exists rest, font_tries env points = c_truetype "arial.ttf" points :: rest.
Proof.
  unfold font_tries.
  destruct (raises env (c_truetype "arial.ttf" points));
    [destruct (raises env (c_truetype "/System/Library/Fonts/Arial.ttf" points))|];
    eauto.
Qed.

(** C2.  For every size above zero, what [create_icon] returns is an RGB
    image of exactly size by size pixels filled with [#0077b5], and the point
    size it asks the fonts for is the floor of size times 0.4: the binary64
    product truncated by [int] is that floor.  Within Pillow's range of
    dimensions and with its drawing calls going through, it does return. *)
Theorem create_icon_canvas env size w :
  0 < size ->
  (forall w' img,
     create_icon env size w = (w', Ok img) ->
     im_mode img = "RGB" /\ im_width img = size /\ im_height img = size /\
     im_color img = "#0077b5" /\
     font_size size = Ok (floor_0_4 size) /\
     (exists x, PyFloat.int_times_0_4 size = Ok x /\
                PyFloat.floor x = Ok (floor_0_4 size)) /\
     exists cs,
       calls w' = calls w ++ cs /\
       head cs = Some (c_new "RGB" (size, size) "#0077b5") /\
       c_truetype "arial.ttf" (floor_0_4 size) ∈ cs /\
       forall f p, c_truetype f p ∈ cs -> p = floor_0_4 size)
  /\
  (size < 2 ^ 31 -> drawing_works env ->
   exists w' img, create_icon env size w = (w', Ok img)).
Proof.
  intros Hpos. split.
  - intros w' img H. apply create_icon_inv in H as (Hs & _ & -> & ->).
    rewrite floor_0_4_eq.
    split; [reflexivity|]. split; [reflexivity|]. split; [reflexivity|].
    assert (Hfs : font_size size = Ok (2 * size / 5)) by (apply font_size_exact; lia).
    split; [reflexivity|]. split; [exact Hfs|]. split.
    { unfold font_size in Hfs.
      destruct (PyFloat.int_times_0_4 size) as [x|e] eqn:Ex; [|discriminate].
      exists x. split; [reflexivity|].
      rewrite <- (to_int_floor size x) by (lia || exact Ex). exact Hfs. }
    exists (icon_calls env size). split; [reflexivity|]. split; [reflexivity|].
    unfold icon_calls. cbn zeta.
    destruct (font_tries_first env (2 * size / 5)) as [rest Hrest].
    split.
    + rewrite Hrest. do 2 right. left.
    + intros f p Hin.
      apply elem_of_app in Hin as [Hin | Hin].
      * repeat (apply elem_of_cons in Hin as [Hin | Hin]; [discriminate|]).
        apply elem_of_nil in Hin as [].
      * apply elem_of_app in Hin as [Hin | Hin].
        -- eapply font_tries_points. exact Hin.
        -- repeat (apply elem_of_cons in Hin as [Hin | Hin]; [discriminate|]).
           apply elem_of_nil in Hin as [].
  - intros Hs Hd. apply create_icon_total; [lia | exact Hd].
Qed.

Lemma create_icon_canvas_witness :
  exists img, snd (create_icon env_fine 72 clean) = Ok img /\
              im_width img = 72 /\ font_size 72 = Ok 28.
Proof.
  destruct (create_icon_canvas env_fine 72 clean) as [Hprops Htotal]; [lia|].
  destruct Htotal as (w' & img & Hrun); [lia | intros c _; reflexivity |].
  destruct (Hprops w' img Hrun) as (_ & Hw & _ & _ & Hfs & _ & _).
  exists img. rewrite Hrun. split; [reflexivity|]. split; [exact Hw | exact Hfs].
Defined.

(** C3.  For every size above zero, the border is what [create_icon] draws
    last, after the glyph: a rectangle outline in [#005582] from (0, 0) to
    (size-1, size-1), of thickness max(1, size // 64), which is 8 for size
    512 and 1 for size 72. *)
Theorem create_icon_border env size w :
  0 < size ->
  (forall w' img,
     create_icon env size w = (w', Ok img) ->
     (exists xy font,
        im_drawn img = [Text xy glyph "white" font;
                        Rectangle (0, 0, size - 1, size - 1) "#005582"
                          (Z.max 1 (size / 64))]) /\
     (exists cs under xy font,
        calls w' = calls w ++ cs
                     ++ [c_text (blank size) xy glyph "white" font;
                         c_rectangle under (0, 0, size - 1, size - 1) "#005582"
                           (Z.max 1 (size / 64))]))
  /\
  (size < 2 ^ 31 -> drawing_works env ->
   exists w' img, create_icon env size w = (w', Ok img))
  /\
  border_width 512 = 8 /\ border_width 72 = 1.
Proof.
  intros Hpos. split; [|split; [|split; reflexivity]].
  - intros w' img H. apply create_icon_inv in H as (_ & _ & -> & ->). split.
    + eexists _, _. reflexivity.
    + unfold icon_calls. cbn zeta.
      eexists (_ :: _ :: font_tries env _ ++ [_]), _, _, _.
      cbn [add_calls calls]. f_equal. cbn [app]. do 2 f_equal.
      rewrite <- app_assoc. reflexivity.
  - intros Hs Hd. apply create_icon_total; [lia | exact Hd].
Qed.

Lemma create_icon_border_witness :
  exists img, snd (create_icon env_fine 512 clean) = Ok img /\
              last (im_drawn img) = Some (Rectangle (0, 0, 511, 511) "#005582" 8).
Proof.
  destruct (create_icon_border env_fine 512 clean) as (Hprops & Htotal & _); [lia|].
  destruct Htotal as (w' & img & Hrun); [lia | intros c _; reflexivity |].
  destruct (Hprops w' img Hrun) as ((xy & font & Hdrawn) & _).
  exists img. rewrite Hrun. split; [reflexivity|]. rewrite Hdrawn. reflexivity.
Defined.

(** C4.  For every size above zero, [create_icon] measures the glyph with the
    font the tiers chose and then draws it in white at
    x = (size - width) // 2, y = (size - height) // 2 - top, where width
    and height are those of the measured box and top is its upper edge. *)
Theorem create_icon_glyph env size w :
  0 < size ->
  (forall w' img,
     create_icon env size w = (w', Ok img) ->
     exists font left top right bottom cs1 cs2,
       (forall w0, snd (select_font env (floor_0_4 size) w0) = Ok font) /\
       bbox_of env (0, 0) glyph font = (left, top, right, bottom) /\
       let text_width := right - left in
       let text_height := bottom - top in
       let x := (size - text_width) / 2 in
       let y := (size - text_height) / 2 - top in
       calls w' = calls w ++ cs1
                    ++ [c_textbbox (blank size) (0, 0) glyph font;
                        c_text (blank size) (x, y) glyph "white" font] ++ cs2 /\
       head (im_drawn img) = Some (Text (x, y) glyph "white" font))
  /\
  (size < 2 ^ 31 -> drawing_works env ->
   exists w' img, create_icon env size w = (w', Ok img)).
Proof.
  intros Hpos. split.
  - intros w' img H. apply create_icon_inv in H as (_ & _ & -> & ->).
    rewrite floor_0_4_eq.
    set (font := font_tier env (2 * size / 5)).
    destruct (bbox_of env (0, 0) glyph font) as [[[left top] right] bottom] eqn:Eb.
    exists font, left, top, right, bottom.
    eexists (_ :: _ :: font_tries env _), [_].
    split; [intros w0; rewrite select_font_run; reflexivity|].
    split; [exact Eb|]. cbn zeta. split.
    + unfold icon_calls. cbn zeta. fold font. rewrite Eb.
      cbn [add_calls calls glyph_xy]. f_equal.
    + unfold icon. cbn zeta. fold font. rewrite Eb. reflexivity.
  - intros Hs Hd. apply create_icon_total; [lia | exact Hd].
Qed.

Lemma create_icon_glyph_witness :
  exists img, snd (create_icon env_fine 96 clean) = Ok img /\
              head (im_drawn img)
                = Some (Text (29, 25) glyph "white" (FreeTypeFont "arial.ttf" 38)).
Proof.
  destruct (create_icon_glyph env_fine 96 clean) as (Hprops & Htotal); [lia|].
  destruct Htotal as (w' & img & Hrun); [lia | intros c _; reflexivity |].
  destruct (Hprops w' img Hrun)
    as (font & left & top & right & bottom & cs1 & cs2 & Hfont & Hbox & _ & Hhead).
  exists img. rewrite Hrun. split; [reflexivity|].
  specialize (Hfont clean). vm_compute in Hfont. injection Hfont as <-.
  vm_compute in Hbox. injection Hbox as <- <- <- <-. exact Hhead.
Defined.

(** C5, as the script has it.  Without Pillow the import on line 8 raises
    before the guarded call of lines 77-88 is reached: the exception is not
    caught, nothing is printed and nothing is written.  The hint of lines
    81-82 is printed only for an [ImportError] that comes out of
    [generate_all_icons] itself. *)
Theorem script_without_pillow :
  script env_no_pillow clean
    = ({| fs := ∅; stdout := []; calls := [c_import "os"; c_import "PIL"] |},
       Raise (Exn ModuleNotFoundError "No module named 'PIL'"))
  /\
  (forall env w wf e,
     generate_all_icons env w = (wf, Raise e) -> is_ImportError e = true ->
     main env w = (add_out install_hint wf, Ok tt)).
Proof.
  split; [vm_compute; reflexivity|].
  intros env w wf e Hrun He. unfold main, try_except. rewrite Hrun, He.
  unfold bind. rewrite !print_run, !add_out_add_out. reflexivity.
Qed.








(** * Failure *)

Lemma jobs_sizes_distinct : NoDup (map job_size jobs).
Proof. apply (bool_decide_unpack _). vm_compute. exact I. Qed.

Lemma jobs_files_distinct : NoDup (map job_file jobs).
Proof. apply (bool_decide_unpack _). vm_compute. exact I. Qed.

Lemma job_size_of sizes : map job_size (map job_of sizes) = sizes.
Proof. induction sizes as [|s sizes IH]; [reflexivity|]. cbn [map]. rewrite IH. reflexivity. Qed.

Lemma job_file_of sizes : map job_file (map job_of sizes) = map png_of sizes.
Proof. induction sizes as [|s sizes IH]; [reflexivity|]. cbn [map]. rewrite IH. reflexivity. Qed.

(** A place in the list of jobs is a place in [ICON_SIZES] or the favicon. *)
Lemma split_jobs before size filename format after :
  jobs = before ++ (size, filename, format) :: after ->
  (exists pre post,
     ICON_SIZES = pre ++ size :: post /\ before = map job_of pre /\
     filename = icon_filename size /\ format = "PNG") \/
  (before = map job_of ICON_SIZES /\ size = 32 /\ filename = "favicon.ico" /\
   format = "ICO" /\ after = []).
Proof.
  intros H. unfold jobs, ICON_SIZES, job_of in H. cbn [map app] in H.
  do 8 (destruct before as [|? before];
        [ simplify_eq/=; left;
          match goal with
          | |- exists pre post, _ /\ ?b = _ /\ _ =>
              exists (map job_size b), (drop (S (length b)) ICON_SIZES)
          end; repeat split; reflexivity
        | cbn [app] in H; injection H as <- H ]).
  destruct before as [|? before].
  - simplify_eq/=. right. repeat split; reflexivity.
  - cbn [app] in H. injection H as <- H. destruct before; discriminate.
Qed.

Lemma reach_inv env sizes w w1 :
  (ensure_dir env ;;;
   print "🎨 Generating LinkedInify icons..." ;;;
   for_each sizes (save_icon env)) w = (w1, Ok tt) ->
  exists w0,
    ensure_dir env w = (w0, Ok tt) /\ Forall (icon_ok env) sizes /\
    w1 = after_icons env sizes (add_out ["🎨 Generating LinkedInify icons..."] w0) /\
    for_each sizes (save_icon env) (add_out ["🎨 Generating LinkedInify icons..."] w0)
      = (w1, Ok tt).
Proof.
  intros H. apply bind_ok_inv in H as ([] & w0 & Hdir & H).
  apply bind_ok_inv in H as ([] & w0' & Hprint & H).
  rewrite print_run in Hprint. injection Hprint as <-.
  exists w0. split; [exact Hdir|].
  pose proof (for_each_save_inv _ _ _ _ H) as [Hall ->]. auto.
Qed.

Lemma save_as_raise env size filename format w1 wf e :
  (icon <- create_icon env size ;; Image_save env icon filename format) w1 = (wf, Raise e) ->
  save_as env size filename format w1 = (wf, Raise e).
Proof.
  unfold save_as, bind. destruct (create_icon env size w1) as [w2 [icon | e']]; [|auto].
  destruct (Image_save env icon filename format w2) as [w3 [[] | e']]; [discriminate | auto].
Qed.

Lemma save_as_raise_inv env size filename format w1 wf e :
  save_as env size filename format w1 = (wf, Raise e) ->
  exists cs, wf = add_calls cs w1 /\ renders cs = [size] /\
             (saves cs = [] \/ saves cs = [(filename, format)]).
Proof.
  intros H.
  destruct (save_as_cases env size filename format w1)
    as [[_ Hrun] | (e' & cs & Hrun & Hrn & Hsv)]; rewrite Hrun in H; [discriminate|].
  injection H as <- <-. eauto.
Qed.

(** A run that raised in one of its stages raised out of
    [generate_all_icons], with the world as that stage left it. *)
Lemma raised_in_run env w wf e started never :
  raised_in env w wf e started never ->
  generate_all_icons env w = (wf, Raise e).
Proof.
  intros [Hdir | before size filename format after w1 Hjobs Hreach Hjob].
  - rewrite generate_all_icons_unfold. apply bind_raise. exact Hdir.
  - apply reach_inv in Hreach as (w0 & Hdir & _ & _ & Hloop).
    apply save_as_raise in Hjob.
    rewrite generate_all_icons_unfold, (bind_ok _ _ _ _ _ Hdir), batch_unfold.
    destruct (split_jobs _ _ _ _ _ Hjobs)
      as [(pre & post & Hsplit & -> & -> & ->) | (-> & -> & -> & -> & _)].
    + rewrite job_size_of in Hloop. apply bind_raise. rewrite Hsplit.
      eapply for_each_abort; [exact Hloop | exact Hjob].
    + rewrite job_size_of in Hloop. rewrite (bind_ok _ _ _ _ _ Hloop).
      apply bind_raise. exact Hjob.
Qed.

(** What the log of such a run holds. *)
Lemma raised_in_calls env w wf e started never :
  raised_in env w wf e started never ->
  jobs = started ++ never /\
  exists cs,
    calls wf = calls w ++ cs /\
    renders cs = map job_size started /\
    (forall file, file ∈ saves cs -> file ∈ map job_file started).
Proof.
  intros [Hdir | before size filename format after w1 Hjobs Hreach Hjob].
  - split; [reflexivity|].
    destruct (ensure_dir_cases env w) as [[_ Hrun] | [(_ & _ & Hrun) | (e' & _ & _ & Hrun)]];
      rewrite Hrun in Hdir; try discriminate.
    injection Hdir as <- <-. exists [c_exists "icons"; c_makedirs "icons"].
    split; [reflexivity|]. split; [reflexivity|]. intros file Hf. exact Hf.
  - split; [rewrite <- app_assoc; exact Hjobs|].
    apply reach_inv in Hreach as (w0 & Hdir & _ & -> & _).
    apply ensure_dir_ok_inv in Hdir as (cs0 & Hc0 & Hs0 & Hr0 & _).
    apply save_as_raise, save_as_raise_inv in Hjob as (cs & -> & Hrn & Hsv).
    exists (cs0 ++ icons_calls env (map job_size before) ++ cs).
    split; [|split].
    + cbn [add_calls calls]. rewrite after_icons_calls. cbn [add_out calls].
      rewrite Hc0, <- !app_assoc. reflexivity.
    + rewrite !renders_app, Hr0, icons_calls_renders, Hrn, map_app. reflexivity.
    + intros file. rewrite !saves_app, Hs0, icons_calls_saves, map_app.
      cbn [app map job_file fst snd].
      assert (Hbefore : map png_of (map job_size before) = map job_file before).
      { destruct (split_jobs _ _ _ _ _ Hjobs)
          as [(pre & post & _ & -> & _) | (-> & _)];
          rewrite job_size_of, job_file_of; reflexivity. }
      rewrite Hbefore. intros Hin. apply elem_of_app in Hin as [Hin | Hin].
      * apply elem_of_app. left. exact Hin.
      * apply elem_of_app. right. destruct Hsv as [Hsv | Hsv]; rewrite Hsv in Hin.
        -- apply elem_of_nil in Hin as [].
        -- exact Hin.
Qed.

(** The second handler reports any [Exception] that is not an [ImportError]. *)
Lemma main_reports env w wf e :
  generate_all_icons env w = (wf, Raise e) ->
  is_ImportError e = false -> is_Exception e = true ->
  main env w = (add_out (failure_report e) wf, Ok tt).
Proof.
  intros Hrun H1 H2. unfold main, try_except. rewrite Hrun, H1, H2.
  unfold bind. rewrite !print_run, !add_out_add_out. reflexivity.
Qed.

(** C7, amended.  If an error that is an [Exception] but not an [ImportError]
    is raised in the directory step, or while drawing or saving any one of
    the nine jobs, then the rest of the batch is dropped: the images asked
    for are those of the jobs begun, every save is of a job begun, and no job
    after the failing one is drawn or saved.  The error comes out of
    [generate_all_icons], the guarded call catches it and ends normally,
    having printed the error's message and the three web services once. *)
Theorem failure_aborts_batch env w wf e started never :
  raised_in env w wf e started never ->
  is_ImportError e = false -> is_Exception e = true ->
  generate_all_icons env w = (wf, Raise e) /\
  jobs = started ++ never /\
  (exists cs,
     calls wf = calls w ++ cs /\
     renders cs = map job_size started /\
     (forall file, file ∈ saves cs -> file ∈ map job_file started) /\
     (forall j, j ∈ never -> (job_size j ∉ renders cs) /\ (job_file j ∉ saves cs))) /\
  exists wm,
    main env w = (wm, Ok tt) /\
    fs wm = fs wf /\ calls wm = calls wf /\
    stdout wm = stdout wf
                  ++ ["❌ Error generating icons: " +:+ exn_msg e;
                      nl +:+ "Alternative: Use online icon generators like:";
                      "  - https://realfavicongenerator.net/";
                      "  - https://www.favicon-generator.org/";
                      "  - https://favicon.io/"].
Proof.
  intros Hin H1 H2.
  pose proof (raised_in_run _ _ _ _ _ _ Hin) as Hrun.
  pose proof (raised_in_calls _ _ _ _ _ _ Hin) as (Hjobs & cs & Hc & Hrn & Hsv).
  split; [exact Hrun|]. split; [exact Hjobs|]. split.
  - exists cs. split; [exact Hc|]. split; [exact Hrn|]. split; [exact Hsv|].
    intros j Hj. split.
    + rewrite Hrn. intros Hin'.
      pose proof jobs_sizes_distinct as Hnd. rewrite Hjobs, map_app in Hnd.
      apply NoDup_app in Hnd as (_ & Hdisj & _).
      apply (Hdisj _ Hin'). apply list_elem_of_fmap. eauto.
    + intros Hin'. apply Hsv in Hin'.
      pose proof jobs_files_distinct as Hnd. rewrite Hjobs, map_app in Hnd.
      apply NoDup_app in Hnd as (_ & Hdisj & _).
      apply (Hdisj _ Hin'). apply list_elem_of_fmap. eauto.
  - exists (add_out (failure_report e) wf).
    split; [apply main_reports; assumption|]. repeat split; reflexivity.
Qed.

Lemma disk_full_raised :
  raised_in env_disk_full clean (fst (generate_all_icons env_disk_full clean))
    (Exn OSError "[Errno 28] No space left on device")
    (map job_of [72; 96; 128; 144]) (map job_of [152; 192; 384; 512] ++ [(32, "favicon.ico", "ICO")]).
Proof.
  apply (in_job env_disk_full clean _ _ (map job_of [72; 96; 128]) 144
           "icons/icon-144x144.png" "PNG"
           (map job_of [152; 192; 384; 512] ++ [(32, "favicon.ico", "ICO")])
           (after_icons env_disk_full [72; 96; 128]
              (add_out ["🎨 Generating LinkedInify icons..."]
                 (set_fs (<["icons" := Dir]> ∅)
                    (add_calls [c_exists "icons"; c_makedirs "icons"] clean))))).
  - vm_compute. reflexivity.
  - vm_compute. reflexivity.
  - vm_compute. reflexivity.
Defined.

Lemma failure_aborts_batch_witness :
  generate_all_icons env_disk_full clean
    = (fst (generate_all_icons env_disk_full clean),
       Raise (Exn OSError "[Errno 28] No space left on device")) /\
  exists wm, main env_disk_full clean = (wm, Ok tt) /\
             last (stdout wm) = Some "  - https://favicon.io/".
Proof.
  destruct (failure_aborts_batch env_disk_full clean _ _ _ _ disk_full_raised)
    as (Hrun & _ & _ & wm & Hmain & _ & _ & Hout).
  - reflexivity.
  - reflexivity.
  - split; [exact Hrun|]. exists wm. split; [exact Hmain|].
    rewrite Hout. rewrite last_app. reflexivity.
Defined.

(** C7 as stated fails for an [ImportError]: raised while the first icon is
    saved, it is taken by the first handler, which prints the hint to install
    Pillow and neither the error's message nor the three web services. *)
Lemma import_error_not_reported :
  let e := Exn ImportError "cannot import name '_imaging'" in
  let wf := fst (generate_all_icons env_plugin_missing clean) in
  raised_in env_plugin_missing clean wf e [job_of 72] (tail jobs) /\
  stdout (fst (main env_plugin_missing clean)) = stdout wf ++ install_hint /\
  ~ (exists wm,
       main env_plugin_missing clean = (wm, Ok tt) /\
       stdout wm = stdout wf
                     ++ ["❌ Error generating icons: " +:+ exn_msg e;
                         nl +:+ "Alternative: Use online icon generators like:";
                         "  - https://realfavicongenerator.net/";
                         "  - https://www.favicon-generator.org/";
                         "  - https://favicon.io/"]).
Proof.
  cbn zeta. split; [|split].
  - apply (in_job env_plugin_missing clean _ _ [] 72 "icons/icon-72x72.png" "PNG" (tail jobs)
             (add_out ["🎨 Generating LinkedInify icons..."]
                (set_fs (<["icons" := Dir]> ∅)
                   (add_calls [c_exists "icons"; c_makedirs "icons"] clean)))).
    + vm_compute. reflexivity.
    + vm_compute. reflexivity.
    + vm_compute. reflexivity.
  - vm_compute. reflexivity.
  - intros (wm & Hmain & Hout).
    assert (Hwm : wm = fst (main env_plugin_missing clean)) by (rewrite Hmain; reflexivity).
    rewrite Hwm in Hout. vm_compute in Hout. discriminate.
Qed.

(** Nor is an exception outside [Exception] caught at all. *)
Lemma interrupt_not_caught env w wf msg :
  generate_all_icons env w = (wf, Raise (Exn KeyboardInterrupt msg)) ->
  main env w = (wf, Raise (Exn KeyboardInterrupt msg)).
Proof. intros H. unfold main, try_except. rewrite H. reflexivity. Qed.

(** * Running again *)



(** * Determinism *)

Lemma font_tier_agree env1 env2 points :
  (forall f p, raises env1 (c_truetype f p) = None <-> raises env2 (c_truetype f p) = None) ->
  font_tier env1 points = font_tier env2 points.
Proof.
  intros H. unfold font_tier.
  pose proof (H "arial.ttf" points) as H1.
  pose proof (H "/System/Library/Fonts/Arial.ttf" points) as H2.
  destruct (raises env1 (c_truetype "arial.ttf" points)),
           (raises env2 (c_truetype "arial.ttf" points));
    try reflexivity; try (destruct H1 as [H1a H1b]; (specialize (H1a eq_refl) || specialize (H1b eq_refl)); discriminate).
  destruct (raises env1 (c_truetype "/System/Library/Fonts/Arial.ttf" points)),
           (raises env2 (c_truetype "/System/Library/Fonts/Arial.ttf" points));
    try reflexivity; destruct H2 as [H2a H2b]; (specialize (H2a eq_refl) || specialize (H2b eq_refl)); discriminate.
Qed.

Lemma icon_agree env1 env2 size :
  (forall f p, raises env1 (c_truetype f p) = None <-> raises env2 (c_truetype f p) = None) ->
  (forall xy text font, bbox_of env1 xy text font = bbox_of env2 xy text font) ->
  icon env1 size = icon env2 size.
Proof.
  intros Hf Hb. unfold icon. cbn zeta.
  rewrite (font_tier_agree env1 env2 _ Hf), Hb. reflexivity.
Qed.

(** C9.  Two runs that go through, in environments that agree on which named
    fonts open, on the measurement of text and on the encoders, and started
    in any two worlds, leave the same bytes in each of the nine files. *)
Theorem rendering_deterministic env1 env2 w1 w2 w1' w2' :
  (forall f p, raises env1 (c_truetype f p) = None <-> raises env2 (c_truetype f p) = None) ->
  (forall xy text font, bbox_of env1 xy text font = bbox_of env2 xy text font) ->
  (forall format img, encode env1 format img = encode env2 format img) ->
  generate_all_icons env1 w1 = (w1', Ok tt) ->
  generate_all_icons env2 w2 = (w2', Ok tt) ->
  (forall size wa wb wa' wb' img1 img2,
     create_icon env1 size wa = (wa', Ok img1) ->
     create_icon env2 size wb = (wb', Ok img2) ->
     img1 = img2) /\
  forall j, j ∈ jobs ->
    exists data,
      fs w1' !! snd (fst j) = Some (File data) /\
      fs w2' !! snd (fst j) = Some (File data).
Proof.
  intros Hf Hb He H1 H2. split.
  { intros size wa wb wa' wb' img1 img2 Ha Hb'.
    apply create_icon_inv in Ha as (_ & _ & _ & ->).
    apply create_icon_inv in Hb' as (_ & _ & _ & ->).
    apply icon_agree; assumption. }
  apply generate_ok_inv in H1 as (w01 & _ & _ & _ & ->).
  apply generate_ok_inv in H2 as (w02 & _ & _ & _ & ->).
  intros j Hj. unfold jobs in Hj. apply elem_of_app in Hj as [Hj | Hj].
  - apply list_elem_of_fmap in Hj as (size & -> & Hsize). cbn [job_of fst snd].
    exists (encode env1 "PNG" (icon env1 size)).
    assert (Hne : "favicon.ico" ≠ icon_filename size).
    { intros E. apply favicon_not_icon. rewrite E. apply list_elem_of_fmap. eauto. }
    rewrite !after_batch_fs, !lookup_insert_ne by exact Hne.
    rewrite !write_icons_in by (exact icon_names_distinct || exact Hsize).
    rewrite (icon_agree env1 env2 size Hf Hb), He. split; reflexivity.
  - apply list_elem_of_singleton in Hj as ->. cbn [fst snd].
    exists (encode env1 "ICO" (icon env1 32)).
    rewrite !after_batch_fs, !lookup_insert_eq.
    rewrite (icon_agree env1 env2 32 Hf Hb), He. split; reflexivity.
Qed.

Lemma rendering_deterministic_witness :
  exists data,
    fs (fst (generate_all_icons env_fine clean)) !! "icons/icon-512x512.png"
      = Some (File data) /\
    fs (fst (generate_all_icons env_fine (fst (generate_all_icons env_fine clean))))
      !! "icons/icon-512x512.png" = Some (File data).
Proof.
  destruct (rendering_deterministic env_fine env_fine clean
              (fst (generate_all_icons env_fine clean))
              (fst (generate_all_icons env_fine clean))
              (fst (generate_all_icons env_fine (fst (generate_all_icons env_fine clean)))))
    as (_ & Hfiles).
  - intros f p. reflexivity.
  - reflexivity.
  - reflexivity.
  - vm_compute. reflexivity.
  - vm_compute. reflexivity.
  - destruct (Hfiles (job_of 512)) as (data & H1 & H2).
    + unfold jobs. apply elem_of_app. left. apply list_elem_of_fmap. exists 512.
      split; [reflexivity|]. unfold ICON_SIZES. repeat constructor.
    + exists data. split; [exact H1 | exact H2].
Defined.

(** * Further properties of the script *)

Lemma after_icons_stdout env sizes w :
  stdout (after_icons env sizes w)
    = stdout w ++ map (fun s => "✅ Created " +:+ icon_filename s) sizes.
Proof.
  revert w. induction sizes as [|s sizes IH]; intros w.
  - cbn. rewrite app_nil_r. reflexivity.
  - change (after_icons env (s :: sizes) w) with (after_icons env sizes (after_icon env s w)).
    rewrite IH. cbn [map after_icon after_save stdout].
    rewrite <- !app_assoc. reflexivity.
Qed.

Lemma after_batch_stdout env w :
  stdout (after_batch env w)
    = stdout w ++ ["🎨 Generating LinkedInify icons..."]
        ++ map (fun s => "✅ Created " +:+ icon_filename s) ICON_SIZES
        ++ ["✅ Created favicon.ico"] ++ summary.
Proof.
  unfold after_batch. cbn [add_out after_save stdout].
  rewrite after_icons_stdout. cbn [add_out stdout]. rewrite <- !app_assoc. reflexivity.
Qed.

(** X1.  A run of [generate_all_icons] that goes through prints, in this
    order: the opening line, one line per file saved, the closing line, and
    the list of the nine paths; twenty-one lines and nothing else. *)
Theorem successful_run_output env w w' :
  generate_all_icons env w = (w', Ok tt) ->
  stdout w' = stdout w ++
    ["🎨 Generating LinkedInify icons...";
     "✅ Created icons/icon-72x72.png"; "✅ Created icons/icon-96x96.png";
     "✅ Created icons/icon-128x128.png"; "✅ Created icons/icon-144x144.png";
     "✅ Created icons/icon-152x152.png"; "✅ Created icons/icon-192x192.png";
     "✅ Created icons/icon-384x384.png"; "✅ Created icons/icon-512x512.png";
     "✅ Created favicon.ico";
     nl +:+ "🎉 All icons generated successfully!";
     nl +:+ "Generated files:";
     "  - icons/icon-72x72.png"; "  - icons/icon-96x96.png";
     "  - icons/icon-128x128.png"; "  - icons/icon-144x144.png";
     "  - icons/icon-152x152.png"; "  - icons/icon-192x192.png";
     "  - icons/icon-384x384.png"; "  - icons/icon-512x512.png";
     "  - favicon.ico"].
Proof.
  intros H. apply generate_ok_inv in H as (w0 & Hdir & _ & _ & ->).
  apply ensure_dir_ok_inv in Hdir as (_ & _ & _ & _ & Hout & _).
  rewrite after_batch_stdout, Hout. f_equal.
Qed.

Lemma successful_run_output_witness :
  length (stdout (fst (generate_all_icons env_no_fonts clean))) = 21%nat.
Proof.
  rewrite (successful_run_output env_no_fonts clean (fst (generate_all_icons env_no_fonts clean))).
  - reflexivity.
  - vm_compute. reflexivity.
Defined.

Lemma jobs_names_distinct : NoDup (map (fun j : Z * string * string => snd (fst j)) jobs).
Proof. apply (bool_decide_unpack _). vm_compute. exact I. Qed.

Lemma icons_dir_not_job : "icons" ∉ map (fun j : Z * string * string => snd (fst j)) jobs.
Proof. apply (bool_decide_unpack _). vm_compute. exact I. Qed.

Lemma job_name_of sizes :
  map (fun j : Z * string * string => snd (fst j)) (map job_of sizes) = map icon_filename sizes.
Proof. induction sizes as [|s sizes IH]; [reflexivity|]. cbn [map]. rewrite IH. reflexivity. Qed.

(** The tree and the console a failed run leaves behind. *)
Lemma raised_in_world env w wf e started never :
  raised_in env w wf e started never ->
  (started = [] /\ fs wf = fs w /\ stdout wf = stdout w)
  \/
  (exists pre cur w0,
     started = map job_of pre ++ [cur] /\
     ensure_dir env w = (w0, Ok tt) /\ Forall (icon_ok env) pre /\
     fs wf = write_icons env pre (fs w0) /\
     stdout wf = stdout w ++ "🎨 Generating LinkedInify icons..."
                   :: map (fun s => "✅ Created " +:+ icon_filename s) pre).
Proof.
  intros [Hdir | before size filename format after w1 Hjobs Hreach Hjob].
  - left. split; [reflexivity|].
    destruct (ensure_dir_cases env w) as [[_ Hrun] | [(_ & _ & Hrun) | (e' & _ & _ & Hrun)]];
      rewrite Hrun in Hdir; try discriminate.
    injection Hdir as <- <-. split; reflexivity.
  - right. apply reach_inv in Hreach as (w0 & Hdir & Hall & -> & _).
    apply save_as_raise, save_as_raise_inv in Hjob as (cs & -> & _).
    assert (Hbefore : before = map job_of (map job_size before)).
    { destruct (split_jobs _ _ _ _ _ Hjobs) as [(pre & post & _ & -> & _) | (-> & _)];
        rewrite job_size_of; reflexivity. }
    exists (map job_size before), (size, filename, format), w0.
    split; [rewrite <- Hbefore; reflexivity|]. split; [exact Hdir|]. split; [exact Hall|].
    pose proof (ensure_dir_ok_inv _ _ _ Hdir) as (_ & _ & _ & _ & Hout & _).
    split.
    + cbn [add_calls fs]. rewrite after_icons_fs. reflexivity.
    + cbn [add_calls stdout]. rewrite after_icons_stdout. cbn [add_out stdout].
      rewrite Hout, <- app_assoc. reflexivity.
Qed.

Lemma write_icons_keeps env sizes f p :
  is_Some (f !! p) -> is_Some (write_icons env sizes f !! p).
Proof.
  revert f. induction sizes as [|s sizes IH]; intros f Hp; [exact Hp|].
  rewrite write_icons_cons. apply IH.
  destruct (decide (icon_filename s = p)) as [-> | Hne].
  - rewrite lookup_insert_eq. eauto.
  - rewrite lookup_insert_ne by exact Hne. exact Hp.
Qed.

(** X2.  A run that fails part-way keeps what it had finished: the files of
    the jobs before the failing one are in place with their content, each
    reported by its own line after the opening line, and the files of the
    jobs not reached are as they were.  A run that fails in the directory
    step has printed and written nothing. *)
Theorem failed_run_keeps_finished_files env w wf e started never :
  raised_in env w wf e started never ->
  (forall j, j ∈ never -> fs wf !! snd (fst j) = fs w !! snd (fst j)) /\
  (forall before cur,
     started = before ++ [cur] ->
     stdout wf = stdout w ++ "🎨 Generating LinkedInify icons..."
                   :: map (fun j : Z * string * string => "✅ Created " +:+ snd (fst j)) before /\
     forall j, j ∈ before ->
       exists img,
         (forall w0, snd (create_icon env (job_size j) w0) = Ok img) /\
         fs wf !! snd (fst j) = Some (File (encode env (snd j) img))) /\
  (started = [] -> stdout wf = stdout w /\ fs wf = fs w).
Proof.
  intros Hin.
  pose proof (raised_in_calls _ _ _ _ _ _ Hin) as (Hjobs & _).
  pose proof jobs_names_distinct as Hnd. rewrite Hjobs, map_app in Hnd.
  apply NoDup_app in Hnd as (Hnd1 & Hdisj & _).
  pose proof icons_dir_not_job as Hicons. rewrite Hjobs, map_app in Hicons.
  apply not_elem_of_app in Hicons as [_ Hicons].
  destruct (raised_in_world _ _ _ _ _ _ Hin)
    as [(-> & Hfs & Hout) | (pre & cur & w0 & -> & Hdir & Hall & Hfs & Hout)].
  - split; [|split].
    + intros j _. rewrite Hfs. reflexivity.
    + intros before cur E. destruct before; discriminate.
    + auto.
  - apply ensure_dir_ok_inv in Hdir as (_ & _ & _ & _ & _ & Hother & _).
    rewrite map_app, job_name_of in Hnd1, Hdisj.
    split; [|split].
    + intros j Hj. rewrite Hfs.
      assert (Hname : snd (fst j) ∈ map (fun j : Z * string * string => snd (fst j)) never)
        by (apply list_elem_of_fmap; eauto).
      rewrite write_icons_other.
      * apply Hother. intros E. apply Hicons. rewrite <- E. exact Hname.
      * intros Hpre. apply (Hdisj (snd (fst j))); [|exact Hname].
        apply elem_of_app. left. exact Hpre.
    + intros before cur' E. apply app_inj_tail in E as [<- <-].
      split; [rewrite Hout, map_map; reflexivity|].
      intros j Hj. apply list_elem_of_fmap in Hj as (s & -> & Hs).
      pose proof (proj1 (Forall_forall _ _) Hall s Hs) as (Hrange & Hdraw & _).
      exists (icon env s). split; [apply create_icon_result; assumption|].
      rewrite Hfs. cbn [job_of fst snd]. apply write_icons_in; [|exact Hs].
      apply NoDup_app in Hnd1 as (Hnd1 & _). exact Hnd1.
    + intros E. destruct (map job_of pre); discriminate.
Qed.

Lemma failed_run_keeps_finished_files_witness :
  exists data,
    fs (fst (generate_all_icons env_disk_full clean)) !! "icons/icon-96x96.png"
      = Some (File data) /\
    fs (fst (generate_all_icons env_disk_full clean)) !! "icons/icon-512x512.png" = None.
Proof.
  destruct (failed_run_keeps_finished_files _ _ _ _ _ _ disk_full_raised)
    as (Hnever & Hbefore & _).
  destruct (Hbefore (map job_of [72; 96; 128]) (job_of 144) eq_refl) as (_ & Hfiles).
  destruct (Hfiles (job_of 96)) as (img & _ & Hfile).
  { apply list_elem_of_fmap. exists 96. split; [reflexivity|]. repeat constructor. }
  exists (encode env_disk_full "PNG" img). split; [exact Hfile|].
  assert (H512 : job_of 512 ∈ map job_of [152; 192; 384; 512] ++ [(32, "favicon.ico", "ICO")]).
  { apply elem_of_app. left. apply list_elem_of_fmap. exists 512.
    split; [reflexivity|]. repeat constructor. }
  exact (Hnever (job_of 512) H512).
Defined.




(** X5.  An import that raises, whichever of the three and whatever the
    exception, ends the script there: the exception is not caught, not even
    an [ImportError], later imports and the guarded call are not reached,
    nothing is printed and nothing is written. *)
Theorem import_failure_is_uncaught env w done m after e :
  ["os"; "PIL"; "json"] = done ++ m :: after ->
  (forall m', m' ∈ done -> raises env (c_import m') = None) ->
  raises env (c_import m) = Some e ->
  script env w = (add_calls (map c_import (done ++ [m])) w, Raise e).
Proof.
  intros Hsplit Hdone Hm. unfold script, import_, bind, ext.
  destruct done as [|d1 [|d2 [|d3 done]]]; cbn [app] in Hsplit.
  - injection Hsplit as <- _. rewrite Hm. reflexivity.
  - injection Hsplit as <- <- _.
    rewrite (Hdone "os") by (repeat constructor). rewrite Hm.
    rewrite !log_as_add_calls, !add_calls_add_calls. reflexivity.
  - injection Hsplit as <- <- <- _.
    rewrite (Hdone "os"), (Hdone "PIL") by (repeat constructor). rewrite Hm.
    rewrite !log_as_add_calls, !add_calls_add_calls. reflexivity.
  - injection Hsplit as _ _ _ Habs. destruct done; discriminate.
Qed.

Lemma import_failure_is_uncaught_witness :
  stdout (fst (script env_no_pillow clean)) = [] /\
  fs (fst (script env_no_pillow clean)) = ∅.
Proof.
  rewrite (import_failure_is_uncaught env_no_pillow clean ["os"] "PIL" ["json"]
             (Exn ModuleNotFoundError "No module named 'PIL'")).
  - split; reflexivity.
  - reflexivity.
  - intros m' Hm'. apply list_elem_of_singleton in Hm' as ->. reflexivity.
  - reflexivity.
Defined.

(** X6.  [int(size * 0.4)] on line 22 is computed in binary floating point
    with a constant slightly above four tenths.  For every size from 0 up to
    2^51 the result is nevertheless the exact floor of four tenths of the
    size; the bound matters, since at 3 * 2^50 the result is one too large. *)
Theorem font_size_exact_range :
  (forall size, 0 <= size < 2 ^ 51 -> font_size size = Ok (floor_0_4 size)) /\
  font_size (3 * 2 ^ 50) = Ok (floor_0_4 (3 * 2 ^ 50) + 1).
Proof.
  split.
  - intros size Hs. rewrite floor_0_4_eq. apply font_size_exact. exact Hs.
  - vm_compute. reflexivity.
Qed.

(** X7.  Lines 36-41 centre the glyph's measured box vertically to within a
    pixel: drawn at (x, y), the gap under the box is the gap over it or one
    more.  Horizontally the box's left offset is not taken off, so the gap
    to its right falls short of the same balance by twice that offset; the
    box is centred horizontally exactly when the offset is zero. *)
Theorem glyph_box_margins env size w w' img :
  create_icon env size w = (w', Ok img) ->
  exists x y font left top right bottom,
    head (im_drawn img) = Some (Text (x, y) glyph "white" font) /\
    bbox_of env (0, 0) glyph font = (left, top, right, bottom) /\
    let over := y + top in
    let under := size - (y + bottom) in
    let before := x + left in
    let after := size - (x + right) in
    0 <= under - over <= 1 /\
    0 <= after - before + 2 * left <= 1 /\
    (0 <= after - before <= 1 <-> left = 0).
Proof.
  intros H. apply create_icon_inv in H as (_ & _ & _ & ->).
  set (font := font_tier env (2 * size / 5)).
  destruct (bbox_of env (0, 0) glyph font) as [[[left top] right] bottom] eqn:Eb.
  exists ((size - (right - left)) / 2), ((size - (bottom - top)) / 2 - top),
    font, left, top, right, bottom.
  split; [unfold icon; cbn zeta; fold font; rewrite Eb; reflexivity|].
  split; [exact Eb|]. cbn zeta.
  pose proof (Z.div_mod (size - (right - left)) 2 ltac:(lia)) as Hx.
  pose proof (Z.mod_pos_bound (size - (right - left)) 2 ltac:(lia)) as Hxm.
  pose proof (Z.div_mod (size - (bottom - top)) 2 ltac:(lia)) as Hy.
  pose proof (Z.mod_pos_bound (size - (bottom - top)) 2 ltac:(lia)) as Hym.
  lia.
Qed.

Lemma glyph_box_margins_witness :
  exists img x y font,
    snd (create_icon env_fine 72 clean) = Ok img /\
    head (im_drawn img) = Some (Text (x, y) glyph "white" font).
Proof.
  destruct (glyph_box_margins env_fine 72 clean (fst (create_icon env_fine 72 clean))
              (icon env_fine 72))
    as (x & y & font & left & top & right & bottom & Hhead & _).
  - vm_compute. reflexivity.
  - exists (icon env_fine 72), x, y, font. split; [vm_compute; reflexivity | exact Hhead].
Defined.

(** X8.  The outline that line 47-48 draws is at least one pixel thick, is
    one pixel thick exactly for sizes below 128, grows by one pixel with
    every further 64 pixels of size, and from size 3 on its two sides
    together are thinner than the image, so that an interior remains. *)
Theorem border_leaves_interior env size w w' img :
  create_icon env size w = (w', Ok img) ->
  exists width,
    last (im_drawn img) = Some (Rectangle (0, 0, size - 1, size - 1) "#005582" width) /\
    1 <= width /\
    (width = 1 <-> size < 128) /\
    (64 <= size -> 64 * width <= size < 64 * (width + 1)) /\
    (3 <= size -> 2 * width < size).
Proof.
  intros H. apply create_icon_inv in H as (Hs & _ & _ & ->).
  exists (border_width size). split; [reflexivity|].
  unfold border_width.
  pose proof (Z.div_mod size 64 ltac:(lia)) as Hd.
  pose proof (Z.mod_pos_bound size 64 ltac:(lia)) as Hm.
  repeat split; lia.
Qed.

Lemma border_leaves_interior_witness :
  exists img,
    snd (create_icon env_fine 192 clean) = Ok img /\
    last (im_drawn img) = Some (Rectangle (0, 0, 191, 191) "#005582" 3).
Proof.
  destruct (border_leaves_interior env_fine 192 clean (fst (create_icon env_fine 192 clean))
              (icon env_fine 192))
    as (width & Hlast & _ & _ & Hgrow & _).
  - vm_compute. reflexivity.
  - exists (icon env_fine 192). split; [vm_compute; reflexivity|].
    rewrite Hlast. assert (width = 3) by lia. subst width. reflexivity.
Defined.

Lemma batch_frame env w0 :
  let w' := fst (batch env w0) in
  (forall p, p ∉ map (fun j : Z * string * string => snd (fst j)) jobs ->
             fs w' !! p = fs w0 !! p) /\
  (forall p, is_Some (fs w0 !! p) -> is_Some (fs w' !! p)) /\
  (exists out, stdout w' = stdout w0 ++ out) /\
  (exists cs, calls w' = calls w0 ++ cs).
Proof.
  cbn zeta.
  assert (Hnames : forall p pre post,
            ICON_SIZES = pre ++ post ->
            p ∉ map (fun j : Z * string * string => snd (fst j)) jobs ->
            (p ∉ map icon_filename pre) /\ p <> "favicon.ico").
  { intros p pre post Hsplit Hp. unfold jobs in Hp.
    rewrite map_app, job_name_of, Hsplit, map_app in Hp. cbn [map fst snd] in Hp.
    apply not_elem_of_app in Hp as [Hp Hfav].
    apply not_elem_of_app in Hp as [Hp _].
    split; [exact Hp|]. intros ->. apply Hfav. constructor. }
  destruct (batch_cases env w0)
    as [(_ & _ & Hrun) | [(pre & s & post & e & cs & Hsplit & _ & _ & _ & Hrun)
                        | (e & cs & _ & _ & _ & Hrun)]];
    cbn zeta in Hrun; rewrite Hrun; cbn [fst].
  - split; [|split; [|split]].
    + intros p Hp. destruct (Hnames p ICON_SIZES [] (eq_sym (app_nil_r _)) Hp) as [Hp1 Hp2].
      rewrite after_batch_fs, lookup_insert_ne by congruence.
      apply write_icons_other. exact Hp1.
    + intros p Hp. rewrite after_batch_fs.
      destruct (decide ("favicon.ico" = p)) as [<- | Hne].
      * rewrite lookup_insert_eq. eauto.
      * rewrite lookup_insert_ne by exact Hne. apply write_icons_keeps. exact Hp.
    + eexists. apply after_batch_stdout.
    + eexists. apply after_batch_calls.
  - cbn [add_calls fs stdout calls]. rewrite after_icons_fs, after_icons_stdout, after_icons_calls.
    cbn [add_out fs stdout calls]. split; [|split; [|split]].
    + intros p Hp. destruct (Hnames p pre (s :: post) Hsplit Hp) as [Hp1 _].
      apply write_icons_other. exact Hp1.
    + intros p Hp. apply write_icons_keeps. exact Hp.
    + eexists. rewrite <- app_assoc. reflexivity.
    + eexists. rewrite <- app_assoc. reflexivity.
  - cbn [add_calls fs stdout calls]. rewrite after_icons_fs, after_icons_stdout, after_icons_calls.
    cbn [add_out fs stdout calls]. split; [|split; [|split]].
    + intros p Hp. destruct (Hnames p ICON_SIZES [] (eq_sym (app_nil_r _)) Hp) as [Hp1 _].
      apply write_icons_other. exact Hp1.
    + intros p Hp. apply write_icons_keeps. exact Hp.
    + eexists. rewrite <- app_assoc. reflexivity.
    + eexists. rewrite <- app_assoc. reflexivity.
Qed.

(** X9.  Whatever its outcome, a run of [generate_all_icons] changes no path
    other than [icons] and the nine output files, removes nothing that was
    there, only adds to the console, and begins by asking whether [icons]
    exists. *)
Theorem run_touches_only_its_outputs env w :
  let w' := fst (generate_all_icons env w) in
  (forall p, p <> "icons" ->
             p ∉ map (fun j : Z * string * string => snd (fst j)) jobs ->
             fs w' !! p = fs w !! p) /\
  (forall p, is_Some (fs w !! p) -> is_Some (fs w' !! p)) /\
  (exists out, stdout w' = stdout w ++ out) /\
  (exists cs, calls w' = calls w ++ c_exists "icons" :: cs).
Proof.
  cbn zeta. rewrite generate_all_icons_unfold. unfold bind.
  destruct (ensure_dir_cases env w)
    as [[Hthere Hrun] | [(Hnone & _ & Hrun) | (e & _ & _ & Hrun)]]; rewrite Hrun.
  - destruct (batch_frame env (add_calls [c_exists "icons"] w))
      as (Hother & Hkeep & [out Hout] & [cs Hcs]).
    cbn zeta in *. destruct (batch env _) as [w' r]. cbn [fst] in *.
    split; [|split; [|split]].
    + intros p _ Hp. apply Hother. exact Hp.
    + exact Hkeep.
    + exists out. exact Hout.
    + exists cs. rewrite Hcs. cbn [add_calls calls]. rewrite <- app_assoc. reflexivity.
  - destruct (batch_frame env (set_fs (<["icons" := Dir]> (fs w))
                                 (add_calls [c_exists "icons"; c_makedirs "icons"] w)))
      as (Hother & Hkeep & [out Hout] & [cs Hcs]).
    cbn zeta in *. destruct (batch env _) as [w' r]. cbn [fst] in *.
    split; [|split; [|split]].
    + intros p Hicons Hp. rewrite Hother by exact Hp. cbn [set_fs fs].
      apply lookup_insert_ne. congruence.
    + intros p Hp. apply Hkeep. cbn [set_fs fs].
      destruct (decide ("icons" = p)) as [<- | Hne].
      * rewrite lookup_insert_eq. eauto.
      * rewrite lookup_insert_ne by exact Hne. exact Hp.
    + exists out. exact Hout.
    + exists (c_makedirs "icons" :: cs). rewrite Hcs. cbn [set_fs add_calls calls].
      rewrite <- app_assoc. reflexivity.
  - cbn [fst add_calls fs stdout calls]. split; [|split; [|split]].
    + reflexivity.
    + auto.
    + exists []. rewrite app_nil_r. reflexivity.
    + exists [c_makedirs "icons"]. reflexivity.
Qed.

(** X10.  [create_icon] has no effect outside Pillow: whether it returns or
    raises, it leaves the tree and the console as they were, asks
    [Image.new] once, for a square of the given size and before anything
    else, and saves nothing. *)
Theorem create_icon_only_draws env size w :
  let w' := fst (create_icon env size w) in
  fs w' = fs w /\ stdout w' = stdout w /\
  exists cs,
    calls w' = calls w ++ c_new "RGB" (size, size) "#0077b5" :: cs /\
    renders cs = [] /\ saves cs = [].
Proof.
  cbn zeta.
  destruct (create_icon_cases env size w) as [(_ & _ & Hrun) | (e & cs & Hrun & Hsv & Hrn)];
    rewrite Hrun; cbn [fst add_calls fs stdout calls].
  - split; [reflexivity|]. split; [reflexivity|].
    unfold icon_calls. cbn zeta.
    eexists ([_] ++ font_tries env (2 * size / 5) ++ [_; _; _]). split; [reflexivity|].
    pose proof (font_tries_quiet env (2 * size / 5)) as [Hq1 Hq2].
    rewrite !renders_app, !saves_app, Hq1, Hq2. split; reflexivity.
  - split; [reflexivity|]. split; [reflexivity|].
    exists cs. split; [reflexivity|]. split; assumption.
Qed.
